(** * artik710-logger: the hash-linked file store and the data ingestor

    A shallow embedding of [producer/core/data_access.py]:
    - [DiskStorage], the chain of payload files with its pickled head;
    - [__fetch_input_data], [read_production_data] and
      [read_consumption_data], which derive a payload from the readings
      of the external sources.

    Python values are modelled as the code uses them: numbers are [int]
    or [float] (binary64, the kernel's primitive floats), exceptions are
    explicit results, dictionaries are finite maps, and the file system,
    the clock and the storage object are threaded as state. *)

From Stdlib Require Import ZArith List String Ascii Strings.Byte Lia.
From Stdlib Require Import Floats.PrimFloat Floats.SpecFloat Floats.FloatOps
  Floats.FloatAxioms.
From stdpp Require Import base option gmap strings list pretty.

Set Warnings "-inexact-float,-register-all".
Local Open Scope string_scope.
Local Open Scope Z_scope.

(** ** Exceptions and results *)

(** The subclasses of Python's [Exception] that the module can meet.
    [except Exception] catches every one of them; signals outside
    [Exception] (KeyboardInterrupt, SystemExit) end the process and are
    not values of this type. *)
Inductive exn : Type :=
| EOFError
| UnpicklingError
| AttributeError
| AssertionError
| OSError
| KeyError
| ValueError
| OverflowError
| OtherException (name : string).

Inductive result (A : Type) : Type :=
| Return (a : A)
| Raise (e : exn).
Arguments Return {A} a.
Arguments Raise {A} e.

#[global] Instance result_ret : MRet result := @Return.
#[global] Instance result_bind : MBind result := fun A B f r =>
  match r with
  | Return a => f a
  | Raise e => Raise e
  end.

(** [try: body except Exception: handler]. *)
Definition try_except {A} (body : result A) (handler : exn -> result A)
  : result A :=
  match body with
  | Return a => Return a
  | Raise e => handler e
  end.

(** ** Python numbers *)

Inductive number : Type :=
| PyInt (z : Z)
| PyFloat (f : float).

(** [float(z)] for an int: the nearest binary64, ties to even;
    OverflowError when the int is beyond the range of a float. *)
Definition float_of_int (z : Z) : result float :=
  let f := SF2Prim (binary_normalize prec emax z 0 false) in
  if is_infinity f then Raise OverflowError else Return f.

(** [int(f)] for a float: truncation toward zero; ValueError on NaN and
    OverflowError on an infinity. *)
Definition int_of_float (f : float) : result Z :=
  match Prim2SF f with
  | S754_zero _ => Return 0
  | S754_infinity _ => Raise OverflowError
  | S754_nan => Raise ValueError
  | S754_finite s m e =>
      Return (cond_Zopp s (if 0 <=? e then Z.shiftl (Z.pos m) e
                           else Z.shiftr (Z.pos m) (- e)))
  end.

(** [int(x)]. *)
Definition py_int (x : number) : result Z :=
  match x with
  | PyInt z => Return z
  | PyFloat f => int_of_float f
  end.

(** [a * b]: exact on two ints, otherwise the int operand is converted
    and the product is the binary64 product. *)
Definition py_mul (a b : number) : result number :=
  match a, b with
  | PyInt x, PyInt y => Return (PyInt (x * y))
  | PyInt x, PyFloat g => f ← float_of_int x; Return (PyFloat (f * g)%float)
  | PyFloat f, PyInt y => g ← float_of_int y; Return (PyFloat (f * g)%float)
  | PyFloat f, PyFloat g => Return (PyFloat (f * g)%float)
  end.

(** [a + b]. *)
Definition py_add (a b : number) : result number :=
  match a, b with
  | PyInt x, PyInt y => Return (PyInt (x + y))
  | PyInt x, PyFloat g => f ← float_of_int x; Return (PyFloat (f + g)%float)
  | PyFloat f, PyInt y => g ← float_of_int y; Return (PyFloat (f + g)%float)
  | PyFloat f, PyFloat g => Return (PyFloat (f + g)%float)
  end.

(** [pow(10, 3)] on ints. *)
Definition py_pow_int (b : Z) (e : nat) : number := PyInt (b ^ Z.of_nat e).

(** [math.isfinite]: an int, or a float that is neither NaN nor an
    infinity. *)
Definition is_finite_number (x : number) : bool :=
  match x with
  | PyInt _ => true
  | PyFloat f =>
      match Prim2SF f with
      | S754_nan | S754_infinity _ => false
      | S754_zero _ | S754_finite _ _ _ => true
      end
  end.

(** Rounding to the nearest integer with ties to even, Python's
    [round(f)] on a float.  It is the reading of the word "round" in the
    description of the CO2 scaling, kept apart from [int_of_float], which
    the code calls. *)
Definition round_float_spec (f : float) : result Z :=
  match Prim2SF f with
  | S754_zero _ => Return 0
  | S754_infinity _ => Raise OverflowError
  | S754_nan => Raise ValueError
  | S754_finite s m e =>
      if 0 <=? e then Return (cond_Zopp s (Z.shiftl (Z.pos m) e))
      else
        let q := Z.shiftr (Z.pos m) (- e) in
        let r := Z.pos m - Z.shiftl q (- e) in
        let half := Z.shiftl 1 (- e - 1) in
        let up := (half <? r) || ((half =? r) && Z.odd q) in
        Return (cond_Zopp s (if up then q + 1 else q))
  end.

Definition py_round_spec (x : number) : result Z :=
  match x with
  | PyInt z => Return z
  | PyFloat f => round_float_spec f
  end.

(** ** Readings of the external sources (core.abstract.input) *)

Module Device.
Record t : Type := { is_accumulated : bool }.
End Device.

(** The subclasses of [ExternalData] with the attributes the module
    reads: an energy reading has [device] and [energy], a carbon emission
    reading has [accumulated_co2]. *)
Inductive ExternalData : Type :=
| EnergyData (device : Device.t) (energy : number)
| CarbonEmissionData (accumulated_co2 : number).

(** Attribute access; a missing attribute raises AttributeError. *)
Definition attr_energy (d : ExternalData) : result number :=
  match d with
  | EnergyData _ e => Return e
  | CarbonEmissionData _ => Raise AttributeError
  end.

Definition attr_device (d : ExternalData) : result Device.t :=
  match d with
  | EnergyData dev _ => Return dev
  | CarbonEmissionData _ => Raise AttributeError
  end.

Definition attr_accumulated_co2 (d : ExternalData) : result number :=
  match d with
  | EnergyData _ _ => Raise AttributeError
  | CarbonEmissionData c => Return c
  end.

(** What [read_state()] hands back: an instance of [ExternalData] or any
    other object (None, a dict, a string, ...). *)
Inductive pyobject : Type :=
| External (d : ExternalData)
| NotExternal (repr : string).

(** An [ExternalDataSource] is observed through one call of
    [read_state()], which returns an object or raises. *)
Module ExternalDataSource.
Record t : Type := { read_state : result pyobject }.
End ExternalDataSource.

Module InputConfiguration.
Record t : Type :=
  { energy : ExternalDataSource.t;
    carbon_emission : ExternalDataSource.t }.
End InputConfiguration.

(** ** Payloads (core.abstract.bond) *)

Module ProducedChainData.
Record t : Type :=
  { energy : number;
    is_meter_down : bool;
    previous_hash : string;
    co2_saved : Z;
    is_co2_down : bool }.
End ProducedChainData.

Module ConsumedChainData.
Record t : Type :=
  { energy : number;
    previous_hash : string;
    is_meter_down : bool }.
End ConsumedChainData.

Module ProductionFileData.
Record t : Type :=
  { raw_energy : option ExternalData;
    raw_carbon_emitted : option ExternalData;
    produced : option ProducedChainData.t }.
End ProductionFileData.

Module ConsumptionFileData.
Record t : Type :=
  { raw_energy : option ExternalData;
    consumed : option ConsumedChainData.t }.
End ConsumptionFileData.

Inductive LocalFileData : Type :=
| Production (d : ProductionFileData.t)
| Consumption (d : ConsumptionFileData.t).

(** ** The data ingestor *)

(** [last_state['last_meter_read']]: a missing key raises KeyError. *)
Definition getitem (d : gmap string number) (k : string) : result number :=
  match d !! k with
  | Some v => Return v
  | None => Raise KeyError
  end.

(** The [issubclass] test is the match on [pyobject]: an object that is
    not an [ExternalData] raises AssertionError, which the handler turns
    into None like any other exception. *)
Definition __fetch_input_data (external_data_source : ExternalDataSource.t)
  : result (option ExternalData) :=
  try_except
    (result ← ExternalDataSource.read_state external_data_source;
     match result with
     | External d => Return (Some d)
     | NotExternal _ => Raise AssertionError
     end)
    (fun e => Return None).

Definition read_production_data (config : InputConfiguration.t)
    (last_hash : string) (last_state : gmap string number)
  : result ProductionFileData.t :=
  raw_energy ← __fetch_input_data (InputConfiguration.energy config);
  raw_carbon_emitted ←
    __fetch_input_data (InputConfiguration.carbon_emission config);
  let input_data :=
    {| ProductionFileData.raw_energy := raw_energy;
       ProductionFileData.raw_carbon_emitted := raw_carbon_emitted;
       ProductionFileData.produced := None |} in
  let energy := PyInt 0 in
  let is_meter_down := true in
  '(energy, is_meter_down) ←
    match ProductionFileData.raw_energy input_data with
    | Some reading =>
        energy ← attr_energy reading;
        device ← attr_device reading;
        energy ←
          (if negb (Device.is_accumulated device) then
             last_energy ← getitem last_state "last_meter_read";
             py_add energy last_energy
           else Return energy);
        Return (energy, false)
    | None => Return (energy, is_meter_down)
    end;
  let co2_saved := 0 in
  co2_saved ←
    match ProductionFileData.raw_carbon_emitted input_data with
    | Some reading =>
        co2_saved ← attr_accumulated_co2 reading;
        calculated_co2 ← py_mul energy co2_saved;
        scaled ← py_mul calculated_co2 (py_pow_int 10 3);
        py_int scaled
    | None => Return co2_saved
    end;
  let produced :=
    {| ProducedChainData.energy := energy;
       ProducedChainData.is_meter_down := is_meter_down;
       ProducedChainData.previous_hash := last_hash;
       ProducedChainData.co2_saved := co2_saved;
       ProducedChainData.is_co2_down :=
         match ProductionFileData.raw_carbon_emitted input_data with
         | None => true
         | Some _ => false
         end |} in
  Return {| ProductionFileData.raw_energy := raw_energy;
            ProductionFileData.raw_carbon_emitted := raw_carbon_emitted;
            ProductionFileData.produced := Some produced |}.

Definition read_consumption_data (config : InputConfiguration.t)
    (last_hash : string) (last_state : gmap string number)
  : result ConsumptionFileData.t :=
  raw_energy ← __fetch_input_data (InputConfiguration.energy config);
  let input_data :=
    {| ConsumptionFileData.raw_energy := raw_energy;
       ConsumptionFileData.consumed := None |} in
  let energy := PyInt 0 in
  let is_meter_down := true in
  '(energy, is_meter_down) ←
    match ConsumptionFileData.raw_energy input_data with
    | Some reading =>
        energy ← attr_energy reading;
        device ← attr_device reading;
        energy ←
          (if negb (Device.is_accumulated device) then
             last_energy ← getitem last_state "last_meter_read";
             py_add energy last_energy
           else Return energy);
        Return (energy, false)
    | None => Return (energy, is_meter_down)
    end;
  Return {| ConsumptionFileData.raw_energy := raw_energy;
            ConsumptionFileData.consumed :=
              Some {| ConsumedChainData.energy := energy;
                      ConsumedChainData.previous_hash := last_hash;
                      ConsumedChainData.is_meter_down := is_meter_down |} |}.

(** ** SHA-1 (hashlib.sha1) *)

Module SHA1.

Definition w32 (x : Z) : Z := x mod 2 ^ 32.
Definition add32 (a b : Z) : Z := w32 (a + b).
Definition rotl32 (n x : Z) : Z :=
  Z.lor (w32 (Z.shiftl x n)) (Z.shiftr x (32 - n)).
Definition not32 (x : Z) : Z := Z.lxor x 0xFFFFFFFF.

Definition Z_of_byte (b : byte) : Z := Z.of_N (Byte.to_N b).
Definition byte_of_Z (x : Z) : byte :=
  match Byte.of_N (Z.to_N (x mod 256)) with
  | Some b => b
  | None => x00
  end.

(** Big-endian bytes of a word of [n] bytes. *)
Fixpoint be_bytes (n : nat) (x : Z) : list Z :=
  match n with
  | O => []
  | S n' => Z.shiftr x (8 * Z.of_nat n') mod 256 :: be_bytes n' x
  end.

(** The message followed by 0x80, zeros up to 56 modulo 64, and the bit
    length on 8 bytes. *)
Definition pad (msg : list Z) : list Z :=
  let len := Z.of_nat (length msg) in
  msg ++ [0x80] ++ repeat 0 (Z.to_nat ((55 - len) mod 64))
      ++ be_bytes 8 (8 * len).

Fixpoint words (fuel : nat) (l : list Z) : list Z :=
  match fuel, l with
  | S fuel', b3 :: b2 :: b1 :: b0 :: rest =>
      (Z.shiftl b3 24 + Z.shiftl b2 16 + Z.shiftl b1 8 + b0)
        :: words fuel' rest
  | _, _ => []
  end.

Fixpoint blocks (fuel : nat) (l : list Z) : list (list Z) :=
  match fuel, l with
  | S fuel', _ :: _ => firstn 16 l :: blocks fuel' (skipn 16 l)
  | _, _ => []
  end.

(** The message schedule: 16 words extended to 80. *)
Fixpoint expand (n : nat) (w : list Z) : list Z :=
  match n with
  | O => w
  | S n' =>
      let i := length w in
      let x := Z.lxor (Z.lxor (nth (i - 3) w 0) (nth (i - 8) w 0))
                      (Z.lxor (nth (i - 14) w 0) (nth (i - 16) w 0)) in
      expand n' (w ++ [rotl32 1 x])
  end.

Definition f (t : nat) (b c d : Z) : Z :=
  if (t <? 20)%nat then Z.lor (Z.land b c) (Z.land (not32 b) d)
  else if (t <? 40)%nat then Z.lxor (Z.lxor b c) d
  else if (t <? 60)%nat then
    Z.lor (Z.lor (Z.land b c) (Z.land b d)) (Z.land c d)
  else Z.lxor (Z.lxor b c) d.

Definition k (t : nat) : Z :=
  if (t <? 20)%nat then 0x5A827999
  else if (t <? 40)%nat then 0x6ED9EBA1
  else if (t <? 60)%nat then 0x8F1BBCDC
  else 0xCA62C1D6.

Definition state : Type := Z * Z * Z * Z * Z.

Definition round (w : list Z) (s : state) (t : nat) : state :=
  let '(a, b, c, d, e) := s in
  let tmp :=
    add32 (add32 (add32 (add32 (rotl32 5 a) (f t b c d)) e) (k t))
          (nth t w 0) in
  (tmp, a, rotl32 30 b, c, d).

Definition compress (h : state) (block : list Z) : state :=
  let w := expand 64 block in
  let '(a, b, c, d, e) := fold_left (round w) (seq 0 80) h in
  let '(h0, h1, h2, h3, h4) := h in
  (add32 h0 a, add32 h1 b, add32 h2 c, add32 h3 d, add32 h4 e).

Definition init : state :=
  (0x67452301, 0xEFCDAB89, 0x98BADCFE, 0x10325476, 0xC3D2E1F0).

Definition word_bytes (x : Z) : list byte :=
  [byte_of_Z (Z.shiftr x 24); byte_of_Z (Z.shiftr x 16);
   byte_of_Z (Z.shiftr x 8); byte_of_Z x].

Definition output (s : state) : list byte :=
  let '(h0, h1, h2, h3, h4) := s in
  word_bytes h0 ++ word_bytes h1 ++ word_bytes h2 ++ word_bytes h3
    ++ word_bytes h4.

Definition hash (msg : list byte) : list byte :=
  let p := pad (map Z_of_byte msg) in
  let ws := words (length p) p in
  output (fold_left compress (blocks (length ws) ws) init).

End SHA1.

(** The hasher object of [hashlib]: [sha1()] starts empty, [update]
    appends, [digest] hashes what was fed. *)
Module hashlib.
Definition t : Type := list byte.
Definition sha1 : t := [].
Definition update (h : t) (data : list byte) : t := (h ++ data)%list.
Definition digest (h : t) : list byte := SHA1.hash h.
End hashlib.

(** ** The chain (core.abstract.bond) *)

Module datetime.
Record t : Type :=
  { year : Z; month : Z; day : Z;
    hour : Z; minute : Z; second : Z; microsecond : Z }.
End datetime.

Module ChainFile.
Record t : Type := { file : string; timestamp : datetime.t }.
End ChainFile.

Inductive ChainLink : Type :=
| mkChainLink (data : ChainFile.t) (last_link : option ChainLink).

Definition data (l : ChainLink) : ChainFile.t :=
  match l with mkChainLink d _ => d end.
Definition last_link (l : ChainLink) : option ChainLink :=
  match l with mkChainLink _ p => p end.

(** ** Library functions and the missing base58 module

    What the module calls but does not define: [strftime], the JSON and
    pickle serializers, and [core.base58.b58encode], which is not among
    the sources.  The results below hold for every instance.  The one law
    is the unpickler's behaviour on an empty input, "Ran out of input". *)
Class Runtime : Type :=
  { strftime : datetime.t -> string -> string;
    json_dump : LocalFileData -> list byte;
    pickle_dump : option ChainLink -> list byte;
    pickle_load : list byte -> result (option ChainLink);
    b58encode : list byte -> string;
    pickle_load_empty : pickle_load [] = Raise EOFError }.

(** ** The process state: file system, clock *)

Record World : Type :=
  { files : gmap string (list byte);  (* regular files and their bytes *)
    dirs : gset string;               (* directories *)
    denied : gset string;  (* paths that cannot be created or opened for
                              writing *)
    clock : nat -> datetime.t;        (* what the n-th call of now() reads *)
    ticks : nat }.                    (* calls of now() so far *)

(** State and exceptions: a raised exception keeps the effects that
    came before it. *)
Definition io (S A : Type) : Type := S -> result A * S.

#[global] Instance io_ret {S} : MRet (io S) := fun A a s => (Return a, s).
#[global] Instance io_bind {S} : MBind (io S) := fun A B f m s =>
  match m s with
  | (Return a, s') => f a s'
  | (Raise e, s') => (Raise e, s')
  end.

Definition raise {S A} (e : exn) : io S A := fun s => (Raise e, s).
Definition lift {S A} (r : result A) : io S A := fun s => (r, s).
Definition gets {S A} (f : S -> A) : io S A := fun s => (Return (f s), s).
Definition modify {S} (f : S -> S) : io S unit := fun s => (Return tt, f s).

(** [try: body except E: handler], for the exceptions [catches] selects. *)
Definition try_catch {S A} (body : io S A) (catches : exn -> bool)
    (handler : io S A) : io S A := fun s =>
  match body s with
  | (Return a, s') => (Return a, s')
  | (Raise e, s') => if catches e then handler s' else (Raise e, s')
  end.

Definition is_EOFError (e : exn) : bool :=
  match e with EOFError => true | _ => false end.

(** The three ways the module changes the world. *)
Definition with_dir (w : World) (p : string) : World :=
  {| files := files w; dirs := {[p]} ∪ dirs w; denied := denied w;
     clock := clock w; ticks := ticks w |}.

Definition with_file (w : World) (p : string) (b : list byte) : World :=
  {| files := <[p := b]> (files w); dirs := dirs w; denied := denied w;
     clock := clock w; ticks := ticks w |}.

Definition tick (w : World) : World :=
  {| files := files w; dirs := dirs w; denied := denied w;
     clock := clock w; ticks := S (ticks w) |}.

Definition exists_path (w : World) (p : string) : bool :=
  bool_decide (p ∈ dirs w) || bool_decide (p ∈ dom (files w)).

Module os.

(** [os.path.exists]. *)
Definition path_exists (p : string) : io World bool :=
  gets (fun w => exists_path w p).

(** [os.makedirs]. *)
Definition makedirs (p : string) : io World unit := fun w =>
  if bool_decide (p ∈ denied w) then (Raise OSError, w)
  else (Return tt, with_dir w p).

(** [open(p, 'rb').read()]. *)
Definition read_bytes (p : string) : io World (list byte) := fun w =>
  match files w !! p with
  | Some b => (Return b, w)
  | None => (Raise OSError, w)
  end.

(** [open(p, 'w')] followed by writing [b]. *)
Definition write_bytes (p : string) (b : list byte) : io World unit :=
  fun w =>
  if bool_decide (p ∈ denied w) then (Raise OSError, w)
  else (Return tt, with_file w p b).

(** [datetime.datetime.now()]. *)
Definition now : io World datetime.t := fun w =>
  (Return (clock w (ticks w)), tick w).

End os.

(** ** DiskStorage *)

Module DiskStorage.

Record t : Type :=
  { chain_file : string;
    path : string;
    __memory : option ChainLink }.

(** A method runs on the process state and on [self]. *)
Record State : Type := { world : World; self : t }.

Definition in_world {A} (m : io World A) : io State A := fun st =>
  let '(r, w) := m (world st) in (r, {| world := w; self := self st |}).

Definition set_memory (m : option ChainLink) : io State unit :=
  modify (fun st =>
    {| world := world st;
       self := {| chain_file := chain_file (self st);
                  path := path (self st);
                  __memory := m |} |}).

Section Methods.
Context {RT : Runtime}.

Definition __init__ (chain_file_name path_to_files : string)
  : io World t :=
  let chain_file := path_to_files +:+ chain_file_name in
  let path := path_to_files in
  e ← os.path_exists path_to_files;
  _ ← (if negb e then os.makedirs path_to_files else mret tt);
  e ← os.path_exists chain_file;
  if negb e then
    mret {| chain_file := chain_file; path := path; __memory := None |}
  else
    try_catch
      (b ← os.read_bytes chain_file;
       m ← lift (pickle_load b);
       mret {| chain_file := chain_file; path := path; __memory := m |})
      is_EOFError
      (mret {| chain_file := chain_file; path := path;
               __memory := None |}).

(** The [chain] property. *)
Definition chain : io State (option ChainLink) :=
  gets (fun st => __memory (self st)).

Definition __save_memory : io State unit :=
  m ← gets (fun st => __memory (self st));
  f ← gets (fun st => chain_file (self st));
  in_world (os.write_bytes f (pickle_dump m)).

Definition __chain_append (chain_link : option ChainLink)
  : io State unit :=
  _ ← set_memory chain_link;
  __save_memory.

(** The setter of the [chain] property. *)
Definition chain_setter (chain_link : option ChainLink) : io State unit :=
  match chain_link with
  | Some _ => raise AttributeError
  | None => __chain_append chain_link
  end.

Definition __save_file (data : LocalFileData) : io State string :=
  p ← gets (fun st => path (self st));
  let prefix :=
    match data with
    | Production _ => p +:+ "production/"
    | Consumption _ => p +:+ "consumption/"
    end in
  e ← in_world (os.path_exists prefix);
  _ ← (if negb e then in_world (os.makedirs prefix) else mret tt);
  let file_name_mask := prefix +:+ "%Y-%m-%d-%H:%M:%S.json" in
  t ← in_world os.now;
  let file_name := strftime t file_name_mask in
  _ ← in_world (os.write_bytes file_name (json_dump data));
  mret file_name.

Definition add_to_chain (data : LocalFileData) : io State string :=
  data_file_name ← __save_file data;
  t ← in_world os.now;
  let chain_data :=
    {| ChainFile.file := data_file_name; ChainFile.timestamp := t |} in
  head ← chain;
  let new_link := mkChainLink chain_data head in
  _ ← __chain_append (Some new_link);
  _ ← __save_memory;
  mret data_file_name.

Definition get_last_hash : io State string :=
  head ← chain;
  match head with
  | Some link =>
      let sha3 := hashlib.sha1 in
      b ← in_world (os.read_bytes (ChainFile.file (data link)));
      let sha3 := hashlib.update sha3 b in
      let base58_digest := b58encode (hashlib.digest sha3) in
      mret ("Qm" +:+ base58_digest)
  | None => mret "0x0"
  end.

End Methods.

End DiskStorage.

(** ** An executable instance of the runtime

    Stand-ins with the types of [Runtime], to run the model on concrete
    inputs.  [Sample.pickle_load] follows CPython where the examples need
    it: an empty input raises EOFError, [80 04 4E 2E] is the pickle of
    None, and an input that does not start with a known opcode raises
    UnpicklingError. *)
Module Sample.

Definition pad2 (n : Z) : string :=
  if n <? 10 then "0" +:+ pretty n else pretty n.

Definition pad4 (n : Z) : string :=
  if n <? 10 then "000" +:+ pretty n
  else if n <? 100 then "00" +:+ pretty n
  else if n <? 1000 then "0" +:+ pretty n
  else pretty n.

Definition directive (t : datetime.t) (c : ascii) : string :=
  if Ascii.eqb c "Y" then pad4 (datetime.year t)
  else if Ascii.eqb c "m" then pad2 (datetime.month t)
  else if Ascii.eqb c "d" then pad2 (datetime.day t)
  else if Ascii.eqb c "H" then pad2 (datetime.hour t)
  else if Ascii.eqb c "M" then pad2 (datetime.minute t)
  else if Ascii.eqb c "S" then pad2 (datetime.second t)
  else if Ascii.eqb c "%" then "%"
  else String "%" (String c EmptyString).

Fixpoint format_time (t : datetime.t) (mask : string) : string :=
  match mask with
  | String c (String d rest as tl) =>
      if Ascii.eqb c "%" then directive t d +:+ format_time t rest
      else String c (format_time t tl)
  | _ => mask
  end.

(** A float as its exact decimal expansion. *)
Definition decimal_of_float (f : float) : string :=
  match Prim2SF f with
  | S754_zero s => if s then "-0.0" else "0.0"
  | S754_infinity s => if s then "-Infinity" else "Infinity"
  | S754_nan => "NaN"
  | S754_finite s m e =>
      (if s then "-" else EmptyString) +:+
      (if 0 <=? e then pretty (Z.shiftl (Z.pos m) e) +:+ ".0"
       else
         let q := Z.shiftr (Z.pos m) (- e) in
         let r := Z.pos m - Z.shiftl q (- e) in
         let digits := pretty (r * 5 ^ (- e)) in
         let zeros := (Z.to_nat (- e) - String.length digits)%nat in
         pretty q +:+ "." +:+
         String.concat EmptyString (repeat "0" zeros) +:+ digits)
  end.

Definition json_number (x : number) : string :=
  match x with
  | PyInt z => pretty z
  | PyFloat f => decimal_of_float f
  end.

Definition json_bool (b : bool) : string := if b then "true" else "false".

(** A key between double quotes, followed by a colon. *)
Definition key (k : string) : string :=
  let q := String (ascii_of_nat 34) EmptyString in
  q +:+ k +:+ q +:+ ": ".

Definition json_string (v : string) : string :=
  let q := String (ascii_of_nat 34) EmptyString in
  q +:+ v +:+ q.

Definition json_reading (r : option ExternalData) : string :=
  match r with
  | None => "null"
  | Some (EnergyData dev e) =>
      "{" +:+ key "energy" +:+ json_number e +:+ ", "
        +:+ key "is_accumulated"
        +:+ json_bool (Device.is_accumulated dev) +:+ "}"
  | Some (CarbonEmissionData c) =>
      "{" +:+ key "accumulated_co2" +:+ json_number c +:+ "}"
  end.

Definition json_produced (p : option ProducedChainData.t) : string :=
  match p with
  | None => "null"
  | Some d =>
      "{" +:+ key "energy" +:+ json_number (ProducedChainData.energy d)
        +:+ ", " +:+ key "is_meter_down"
        +:+ json_bool (ProducedChainData.is_meter_down d)
        +:+ ", " +:+ key "previous_hash"
        +:+ json_string (ProducedChainData.previous_hash d)
        +:+ ", " +:+ key "co2_saved"
        +:+ pretty (ProducedChainData.co2_saved d)
        +:+ ", " +:+ key "is_co2_down"
        +:+ json_bool (ProducedChainData.is_co2_down d) +:+ "}"
  end.

Definition json_consumed (p : option ConsumedChainData.t) : string :=
  match p with
  | None => "null"
  | Some d =>
      "{" +:+ key "energy" +:+ json_number (ConsumedChainData.energy d)
        +:+ ", " +:+ key "previous_hash"
        +:+ json_string (ConsumedChainData.previous_hash d)
        +:+ ", " +:+ key "is_meter_down"
        +:+ json_bool (ConsumedChainData.is_meter_down d) +:+ "}"
  end.

Definition dump_json (d : LocalFileData) : list byte :=
  list_byte_of_string
    match d with
    | Production p =>
        "{" +:+ key "raw_energy"
          +:+ json_reading (ProductionFileData.raw_energy p)
          +:+ ", " +:+ key "raw_carbon_emitted"
          +:+ json_reading (ProductionFileData.raw_carbon_emitted p)
          +:+ ", " +:+ key "produced"
          +:+ json_produced (ProductionFileData.produced p) +:+ "}"
    | Consumption c =>
        "{" +:+ key "raw_energy"
          +:+ json_reading (ConsumptionFileData.raw_energy c)
          +:+ ", " +:+ key "consumed"
          +:+ json_consumed (ConsumptionFileData.consumed c) +:+ "}"
    end.

(** The store file: [80 04], the links from the head on, each as
    [L], the file name closed by a zero byte and the seven fields of
    the time on four bytes each, then [N] and the STOP opcode [.]. *)
Definition be32 (x : Z) : list byte :=
  map SHA1.byte_of_Z (SHA1.be_bytes 4 x).

Definition of_be32 (l : list byte) : Z :=
  fold_left (fun acc b => acc * 256 + SHA1.Z_of_byte b) l 0.

Definition dump_time (t : datetime.t) : list byte :=
  be32 (datetime.year t) ++ be32 (datetime.month t)
    ++ be32 (datetime.day t) ++ be32 (datetime.hour t)
    ++ be32 (datetime.minute t) ++ be32 (datetime.second t)
    ++ be32 (datetime.microsecond t).

Fixpoint dump_link (l : ChainLink) : list byte :=
  match l with
  | mkChainLink d prev =>
      ("L"%byte :: list_byte_of_string (ChainFile.file d))
        ++ [x00] ++ dump_time (ChainFile.timestamp d)
        ++ match prev with
           | Some p => dump_link p
           | None => ["N"%byte]
           end
  end.

Definition dump_links (m : option ChainLink) : list byte :=
  match m with
  | Some l => dump_link l
  | None => ["N"%byte]
  end.

Definition dumps (m : option ChainLink) : list byte :=
  [x80; x04] ++ dump_links m ++ ["."%byte].

Fixpoint until_zero (l : list byte) : option (list byte * list byte) :=
  match l with
  | [] => None
  | b :: rest =>
      if Byte.eqb b x00 then Some ([], rest)
      else '(name, rest') ← until_zero rest; Some (b :: name, rest')
  end.

Definition load_time (l : list byte) : option (datetime.t * list byte) :=
  if (length l <? 28)%nat then None
  else
    let field i := of_be32 (firstn 4 (skipn (4 * i) l)) in
    Some ({| datetime.year := field 0%nat; datetime.month := field 1%nat;
             datetime.day := field 2%nat; datetime.hour := field 3%nat;
             datetime.minute := field 4%nat; datetime.second := field 5%nat;
             datetime.microsecond := field 6%nat |}, skipn 28 l).

(** The input ending where an opcode is due is EOFError; ending inside
    a link, or an unknown opcode, is UnpicklingError. *)
Fixpoint load_links (fuel : nat) (l : list byte)
  : result (option ChainLink * list byte) :=
  match fuel, l with
  | S fuel', b :: rest =>
      if Byte.eqb b "N" then Return (None, rest)
      else if Byte.eqb b "L" then
        match until_zero rest with
        | None => Raise UnpicklingError
        | Some (name, rest) =>
            match load_time rest with
            | None => Raise UnpicklingError
            | Some (t, rest) =>
                '(prev, rest) ← load_links fuel' rest;
                Return (Some (mkChainLink
                          {| ChainFile.file := string_of_list_byte name;
                             ChainFile.timestamp := t |} prev), rest)
            end
        end
      else Raise UnpicklingError
  | _, _ => Raise EOFError
  end.

Definition loads (l : list byte) : result (option ChainLink) :=
  match l with
  | [] => Raise EOFError
  | b :: rest =>
      if Byte.eqb b x80 then
        match rest with
        | [] => Raise UnpicklingError
        | _ :: rest =>
            '(m, rest) ← load_links (length rest) rest;
            match rest with
            | [] => Raise EOFError
            | b :: _ =>
                if Byte.eqb b "." then Return m else Raise UnpicklingError
            end
        end
      else Raise UnpicklingError
  end.

(** Base 58 with the Bitcoin alphabet: the bytes as a big-endian
    number, and one [1] for each leading zero byte. *)
Definition alphabet : string :=
  "123456789ABCDEFGHJKLMNPQRSTUVWXYZabcdefghijkmnopqrstuvwxyz".

Definition b58char (d : Z) : ascii :=
  match String.get (Z.to_nat d) alphabet with
  | Some c => c
  | None => "1"%char
  end.

Fixpoint b58digits (fuel : nat) (n : Z) (acc : string) : string :=
  match fuel with
  | O => acc
  | S fuel' =>
      if n <? 58 then String (b58char n) acc
      else b58digits fuel' (n / 58) (String (b58char (n mod 58)) acc)
  end.

Fixpoint leading_zeros (l : list byte) : string :=
  match l with
  | b :: rest =>
      if Byte.eqb b x00 then String "1" (leading_zeros rest)
      else EmptyString
  | [] => EmptyString
  end.

Definition encode58 (v : list byte) : string :=
  leading_zeros v +:+
  b58digits (2 * length v + 1)
            (fold_left (fun acc b => acc * 256 + SHA1.Z_of_byte b) v 0)
            EmptyString.

#[global] Instance runtime : Runtime :=
  {| strftime := format_time;
     json_dump := dump_json;
     pickle_dump := dumps;
     pickle_load := loads;
     b58encode := encode58;
     pickle_load_empty := eq_refl |}.

End Sample.

(** ** Sample states *)

Module Scenario.

(** A clock that reads 2018-03-09 14:05:00 and one second more at each
    call. *)
Definition seconds (n : nat) : datetime.t :=
  {| datetime.year := 2018; datetime.month := 3; datetime.day := 9;
     datetime.hour := 14; datetime.minute := 5;
     datetime.second := Z.of_nat n; datetime.microsecond := 0 |}.

(** The directory [/data/] and nothing else; every write goes through. *)
Definition fresh_world : World :=
  {| files := ∅; dirs := {["/data/"]}; denied := ∅;
     clock := seconds; ticks := 0 |}.

(** The same with a store file that cannot be written. *)
Definition readonly_store_world : World :=
  {| files := ∅; dirs := {["/data/"]}; denied := {["/data/chain.pkl"]};
     clock := seconds; ticks := 0 |}.

(** The same with a store file that holds one zero byte. *)
Definition corrupt_store_world : World :=
  {| files := {["/data/chain.pkl" := [x00]]}; dirs := {["/data/"]};
     denied := ∅; clock := seconds; ticks := 0 |}.

(** The same with an empty store file. *)
Definition empty_store_world : World :=
  {| files := {["/data/chain.pkl" := []]}; dirs := {["/data/"]};
     denied := ∅; clock := seconds; ticks := 0 |}.

Definition storage : DiskStorage.t :=
  {| DiskStorage.chain_file := "/data/chain.pkl";
     DiskStorage.path := "/data/";
     DiskStorage.__memory := None |}.

(** A chain of one link to a file that holds [abc]. *)
Definition abc_link : ChainLink :=
  mkChainLink
    {| ChainFile.file := "/data/production/2018-03-09-14:04:58.json";
       ChainFile.timestamp := seconds 0 |}
    None.

Definition abc_world : World :=
  {| files :=
       {["/data/production/2018-03-09-14:04:58.json" :=
           list_byte_of_string "abc"]};
     dirs := {["/data/"; "/data/production/"]}; denied := ∅;
     clock := seconds; ticks := 0 |}.

Definition abc_state : DiskStorage.State :=
  {| DiskStorage.world := abc_world;
     DiskStorage.self :=
       {| DiskStorage.chain_file := "/data/chain.pkl";
          DiskStorage.path := "/data/";
          DiskStorage.__memory := Some abc_link |} |}.

(** Another store, another file name, the same bytes. *)
Definition abc_state' : DiskStorage.State :=
  {| DiskStorage.world :=
       {| files := {["/backup/consumption/copy.json" :=
                       list_byte_of_string "abc"]};
          dirs := {["/backup/"]}; denied := {["/backup/chain.pkl"]};
          clock := seconds; ticks := 7 |};
     DiskStorage.self :=
       {| DiskStorage.chain_file := "/backup/chain.pkl";
          DiskStorage.path := "/backup/";
          DiskStorage.__memory :=
            Some (mkChainLink
                    {| ChainFile.file := "/backup/consumption/copy.json";
                       ChainFile.timestamp := seconds 3 |}
                    (Some abc_link)) |} |}.

Definition meter_down : LocalFileData :=
  Consumption
    {| ConsumptionFileData.raw_energy := None;
       ConsumptionFileData.consumed :=
         Some {| ConsumedChainData.energy := PyInt 0;
                 ConsumedChainData.previous_hash := "0x0";
                 ConsumedChainData.is_meter_down := true |} |}.

Definition produced_17 : LocalFileData :=
  Production
    {| ProductionFileData.raw_energy :=
         Some (EnergyData {| Device.is_accumulated := false |} (PyInt 5));
       ProductionFileData.raw_carbon_emitted := None;
       ProductionFileData.produced :=
         Some {| ProducedChainData.energy := PyInt 17;
                 ProducedChainData.is_meter_down := false;
                 ProducedChainData.previous_hash := "0x0";
                 ProducedChainData.co2_saved := 0;
                 ProducedChainData.is_co2_down := true |} |}.

End Scenario.

(** ** Vocabulary of the statements *)

(** The reading that [__fetch_input_data] hands on for a source. *)
Definition reading_of (src : ExternalDataSource.t) : option ExternalData :=
  match ExternalDataSource.read_state src with
  | Return (External d) => Some d
  | _ => None
  end.

(** A source fails when [read_state] raises or returns an object that is
    not an [ExternalData]. *)
Definition source_fails (src : ExternalDataSource.t) : Prop :=
  match ExternalDataSource.read_state src with
  | Raise _ => True
  | Return (NotExternal _) => True
  | Return (External _) => False
  end.

(** Lines 116-123 of [read_production_data], the same as lines 150-157
    of [read_consumption_data]: the energy and the meter flag. *)
Definition energy_lines (raw_energy : option ExternalData)
    (last_state : gmap string number) : result (number * bool) :=
  match raw_energy with
  | Some reading =>
      energy ← attr_energy reading;
      device ← attr_device reading;
      energy ←
        (if negb (Device.is_accumulated device) then
           last_energy ← getitem last_state "last_meter_read";
           py_add energy last_energy
         else Return energy);
      Return (energy, false)
  | None => Return (PyInt 0, true)
  end.

(** Lines 124-128 of [read_production_data]: the CO2 saved. *)
Definition co2_lines (energy : number)
    (raw_carbon_emitted : option ExternalData) : result Z :=
  match raw_carbon_emitted with
  | Some reading =>
      co2_saved ← attr_accumulated_co2 reading;
      calculated_co2 ← py_mul energy co2_saved;
      scaled ← py_mul calculated_co2 (py_pow_int 10 3);
      py_int scaled
  | None => Return 0
  end.

(** The running total of an energy reading: the reading itself for a
    self-accumulating device, the reading plus
    [last_state['last_meter_read']] otherwise. *)
Inductive carried_forward (device : Device.t) (energy : number)
    (last_state : gmap string number) : number -> Prop :=
| carried_total :
    Device.is_accumulated device = true ->
    carried_forward device energy last_state energy
| carried_delta last_meter_read total :
    Device.is_accumulated device = false ->
    last_state !! "last_meter_read" = Some last_meter_read ->
    py_add energy last_meter_read = Return total ->
    carried_forward device energy last_state total.

(** The carbon source does not get in the way of a payload: it fails, or
    it returns a carbon reading with a finite [accumulated_co2]. *)
Definition carbon_usable (src : ExternalDataSource.t) : Prop :=
  match reading_of src with
  | None => True
  | Some (CarbonEmissionData c) => is_finite_number c = true
  | Some (EnergyData _ _) => False
  end.

(** The directory and the name of the file of a payload. *)
Definition payload_prefix (s : DiskStorage.t) (data : LocalFileData)
  : string :=
  match data with
  | Production _ => DiskStorage.path s +:+ "production/"
  | Consumption _ => DiskStorage.path s +:+ "consumption/"
  end.

Definition payload_name `{Runtime} (s : DiskStorage.t) (data : LocalFileData)
    (t : datetime.t) : string :=
  strftime t (payload_prefix s data +:+ "%Y-%m-%d-%H:%M:%S.json").

(** A directory is ready when it exists or can be created. *)
Definition dir_ready (w : World) (p : string) : Prop :=
  exists_path w p = true \/ p ∉ denied w.

(** The world once the directory [p] has been made sure of. *)
Definition ensure_dir (w : World) (p : string) : World :=
  if exists_path w p then w else with_dir w p.

(** The head of the chain and the store file of a state. *)
Definition head (st : DiskStorage.State) : option ChainLink :=
  DiskStorage.__memory (DiskStorage.self st).

Definition store_file (st : DiskStorage.State) : option (list byte) :=
  files (DiskStorage.world st)
    !! DiskStorage.chain_file (DiskStorage.self st).

(** What one [add_to_chain] leaves behind: the head is [link], which
    points at the payload file and at the old head, the store file holds
    the pickled head, and the payload file holds the payload. *)
Definition appended `{Runtime} (st : DiskStorage.State)
    (payload : LocalFileData) (name : string) (st' : DiskStorage.State)
    (link : ChainLink) : Prop :=
  head st' = Some link
  /\ ChainFile.file (data link) = name
  /\ last_link link = head st
  /\ store_file st' = Some (pickle_dump (Some link))
  /\ (name <> DiskStorage.chain_file (DiskStorage.self st) ->
      files (DiskStorage.world st') !! name = Some (json_dump payload))
  /\ DiskStorage.chain_file (DiskStorage.self st') =
     DiskStorage.chain_file (DiskStorage.self st)
  /\ DiskStorage.path (DiskStorage.self st') =
     DiskStorage.path (DiskStorage.self st).

(** The files of the chain, from the head back to the first link. *)
Fixpoint link_files (l : ChainLink) : list string :=
  match l with
  | mkChainLink d prev =>
      ChainFile.file d ::
      match prev with
      | Some p => link_files p
      | None => []
      end
  end.

Definition chain_files (m : option ChainLink) : list string :=
  match m with
  | Some l => link_files l
  | None => []
  end.

(** Every file of the chain is a regular file of the world. *)
Definition chain_files_present (st : DiskStorage.State) : Prop :=
  Forall (fun f => is_Some (files (DiskStorage.world st) !! f))
         (chain_files (head st)).

(** ** The data ingestor: results *)

Lemma fetch_input_data_total (src : ExternalDataSource.t) :
  __fetch_input_data src = Return (reading_of src).
Proof.
  unfold __fetch_input_data, reading_of, try_except.
  destruct (ExternalDataSource.read_state src) as [[d | r] | e]; reflexivity.
Qed.

Lemma reading_of_failed (src : ExternalDataSource.t) :
  source_fails src -> reading_of src = None.
Proof.
  unfold source_fails, reading_of.
  destruct (ExternalDataSource.read_state src) as [[d | r] | e];
    intros H; [destruct H | reflexivity | reflexivity].
Qed.

(** The two functions as the sequence of their line blocks. *)
Lemma read_production_data_lines config last_hash last_state :
  read_production_data config last_hash last_state =
  ('(energy, is_meter_down) ←
     energy_lines (reading_of (InputConfiguration.energy config)) last_state;
   co2_saved ←
     co2_lines energy
       (reading_of (InputConfiguration.carbon_emission config));
   Return
     {| ProductionFileData.raw_energy :=
          reading_of (InputConfiguration.energy config);
        ProductionFileData.raw_carbon_emitted :=
          reading_of (InputConfiguration.carbon_emission config);
        ProductionFileData.produced :=
          Some {| ProducedChainData.energy := energy;
                  ProducedChainData.is_meter_down := is_meter_down;
                  ProducedChainData.previous_hash := last_hash;
                  ProducedChainData.co2_saved := co2_saved;
                  ProducedChainData.is_co2_down :=
                    match reading_of
                            (InputConfiguration.carbon_emission config) with
                    | None => true
                    | Some _ => false
                    end |} |}).
Proof.
  unfold read_production_data. rewrite !fetch_input_data_total. reflexivity.
Qed.

Lemma read_consumption_data_lines config last_hash last_state :
  read_consumption_data config last_hash last_state =
  ('(energy, is_meter_down) ←
     energy_lines (reading_of (InputConfiguration.energy config)) last_state;
   Return
     {| ConsumptionFileData.raw_energy :=
          reading_of (InputConfiguration.energy config);
        ConsumptionFileData.consumed :=
          Some {| ConsumedChainData.energy := energy;
                  ConsumedChainData.previous_hash := last_hash;
                  ConsumedChainData.is_meter_down := is_meter_down |} |}).
Proof.
  unfold read_consumption_data. rewrite fetch_input_data_total. reflexivity.
Qed.

Lemma energy_lines_carried device energy last_state total :
  carried_forward device energy last_state total ->
  energy_lines (Some (EnergyData device energy)) last_state =
  Return (total, false).
Proof.
  intros [Hacc | last total' Hacc Hlast Hadd]; cbn; rewrite Hacc; cbn.
  - reflexivity.
  - unfold getitem. rewrite Hlast. cbn. rewrite Hadd. reflexivity.
Qed.

(** C4. For every obtained energy reading, [read_consumption_data] and
    [read_production_data] set the energy to the reading's energy, add
    [last_state['last_meter_read']] exactly when the device is not
    self-accumulating, and mark the meter as up.  The production payload
    is there whenever its CO2 lines return. *)
Theorem energy_reading_carried_forward
    (config : InputConfiguration.t) (last_hash : string)
    (last_state : gmap string number)
    (device : Device.t) (energy total : number) :
  ExternalDataSource.read_state (InputConfiguration.energy config) =
    Return (External (EnergyData device energy)) ->
  carried_forward device energy last_state total ->
  read_consumption_data config last_hash last_state =
    Return
      {| ConsumptionFileData.raw_energy := Some (EnergyData device energy);
         ConsumptionFileData.consumed :=
           Some {| ConsumedChainData.energy := total;
                   ConsumedChainData.previous_hash := last_hash;
                   ConsumedChainData.is_meter_down := false |} |}
  /\ forall co2 : Z,
       co2_lines total
         (reading_of (InputConfiguration.carbon_emission config)) =
         Return co2 ->
       exists p d,
         read_production_data config last_hash last_state = Return p
         /\ ProductionFileData.raw_energy p = Some (EnergyData device energy)
         /\ ProductionFileData.produced p = Some d
         /\ ProducedChainData.energy d = total
         /\ ProducedChainData.is_meter_down d = false.
Proof.
  intros Hread Hcarried.
  assert (Hr : reading_of (InputConfiguration.energy config) =
               Some (EnergyData device energy))
    by (unfold reading_of; rewrite Hread; reflexivity).
  pose proof (energy_lines_carried _ _ _ _ Hcarried) as Hlines.
  split.
  - rewrite read_consumption_data_lines, Hr, Hlines. reflexivity.
  - intros co2 Hco2.
    rewrite read_production_data_lines, Hr, Hlines. cbn.
    rewrite Hco2. cbn. eauto 10.
Qed.

(** A delta of 5 from a device that does not accumulate, with
    [last_meter_read = 12], gives [energy = 17] in both payloads. *)
Lemma energy_reading_carried_forward_witness :
  let config :=
    {| InputConfiguration.energy :=
         {| ExternalDataSource.read_state :=
              Return (External
                        (EnergyData {| Device.is_accumulated := false |}
                                    (PyInt 5))) |};
       InputConfiguration.carbon_emission :=
         {| ExternalDataSource.read_state :=
              Raise (OtherException "timeout") |} |} in
  let last_state : gmap string number :=
    {[ "last_meter_read" := PyInt 12 ]} in
  read_consumption_data config "0x0" last_state =
    Return
      {| ConsumptionFileData.raw_energy :=
           Some (EnergyData {| Device.is_accumulated := false |} (PyInt 5));
         ConsumptionFileData.consumed :=
           Some {| ConsumedChainData.energy := PyInt 17;
                   ConsumedChainData.previous_hash := "0x0";
                   ConsumedChainData.is_meter_down := false |} |}
  /\ exists p d,
       read_production_data config "0x0" last_state = Return p
       /\ ProductionFileData.raw_energy p =
            Some (EnergyData {| Device.is_accumulated := false |} (PyInt 5))
       /\ ProductionFileData.produced p = Some d
       /\ ProducedChainData.energy d = PyInt 17
       /\ ProducedChainData.is_meter_down d = false.
Proof.
  intros config last_state.
  destruct (energy_reading_carried_forward config "0x0" last_state
              {| Device.is_accumulated := false |} (PyInt 5) (PyInt 17))
    as [Hc Hp].
  - reflexivity.
  - apply carried_delta with (last_meter_read := PyInt 12); reflexivity.
  - split; [exact Hc | apply (Hp 0); reflexivity].
Defined.

(** [int()] on a float with a fractional part drops the fraction: the
    magnitude of the result is the floor of the magnitude of the float. *)
Lemma int_of_float_truncates (f : float) (s : bool) (m : positive) (e z : Z) :
  Prim2SF f = S754_finite s m e ->
  e < 0 ->
  int_of_float f = Return z ->
  z = cond_Zopp s (Z.abs z)
  /\ Z.abs z * 2 ^ (- e) <= Z.pos m < (Z.abs z + 1) * 2 ^ (- e).
Proof.
  intros Hf He Hz. unfold int_of_float in Hz. rewrite Hf in Hz.
  destruct (Z.leb_spec 0 e) as [Hge | _]; [lia |].
  injection Hz as <-.
  rewrite Z.shiftr_div_pow2 by lia.
  set (d := 2 ^ (- e)).
  assert (Hd : 0 < d) by (apply Z.pow_pos_nonneg; lia).
  assert (Hq : 0 <= Z.pos m / d) by (apply Z.div_pos; lia).
  assert (Habs : Z.abs (cond_Zopp s (Z.pos m / d)) = Z.pos m / d)
    by (destruct s; cbn [cond_Zopp]; lia).
  rewrite Habs. split; [reflexivity |].
  pose proof (Z.div_mod (Z.pos m) d ltac:(lia)) as Hdm.
  pose proof (Z.mod_pos_bound (Z.pos m) d Hd) as Hmod.
  nia.
Qed.

(** C3, as the code has it.  When a carbon reading is obtained, the CO2
    saved is [int((energy * accumulated_co2) * 1000)], the integer
    conversion that truncates toward zero, and [is_co2_down] is false;
    when the carbon source fails, the CO2 saved is 0 and [is_co2_down] is
    true. *)
Theorem co2_saved_truncated_scaling
    (config : InputConfiguration.t) (last_hash : string)
    (last_state : gmap string number)
    (energy : number) (is_meter_down : bool) :
  energy_lines (reading_of (InputConfiguration.energy config)) last_state =
    Return (energy, is_meter_down) ->
  (forall (c x y : number) (z : Z),
     ExternalDataSource.read_state
       (InputConfiguration.carbon_emission config) =
       Return (External (CarbonEmissionData c)) ->
     py_mul energy c = Return x ->
     py_mul x (PyInt 1000) = Return y ->
     py_int y = Return z ->
     exists p d,
       read_production_data config last_hash last_state = Return p
       /\ ProductionFileData.produced p = Some d
       /\ ProducedChainData.energy d = energy
       /\ ProducedChainData.co2_saved d = z
       /\ ProducedChainData.is_co2_down d = false)
  /\ (source_fails (InputConfiguration.carbon_emission config) ->
      exists p d,
        read_production_data config last_hash last_state = Return p
        /\ ProductionFileData.produced p = Some d
        /\ ProducedChainData.energy d = energy
        /\ ProducedChainData.co2_saved d = 0
        /\ ProducedChainData.is_co2_down d = true).
Proof.
  intros Henergy. split.
  - intros c x y z Hread Hx Hy Hz.
    assert (Hr : reading_of (InputConfiguration.carbon_emission config) =
                 Some (CarbonEmissionData c))
      by (unfold reading_of; rewrite Hread; reflexivity).
    rewrite read_production_data_lines, Henergy, Hr. cbn.
    rewrite Hx. cbn. change (py_pow_int 10 3) with (PyInt 1000).
    rewrite Hy. cbn. rewrite Hz. cbn. eauto 10.
  - intros Hfail. apply reading_of_failed in Hfail.
    rewrite read_production_data_lines, Henergy, Hfail. cbn. eauto 10.
Qed.

(** With [energy = 10] and [accumulated_co2 = 0.002] the CO2 saved is 20. *)
Lemma co2_saved_truncated_scaling_witness :
  let config :=
    {| InputConfiguration.energy :=
         {| ExternalDataSource.read_state :=
              Return (External
                        (EnergyData {| Device.is_accumulated := true |}
                                    (PyInt 10))) |};
       InputConfiguration.carbon_emission :=
         {| ExternalDataSource.read_state :=
              Return (External (CarbonEmissionData (PyFloat 0.002))) |} |} in
  exists p d,
    read_production_data config "0x0" ∅ = Return p
    /\ ProductionFileData.produced p = Some d
    /\ ProducedChainData.energy d = PyInt 10
    /\ ProducedChainData.co2_saved d = 20
    /\ ProducedChainData.is_co2_down d = false.
Proof.
  intros config.
  destruct (co2_saved_truncated_scaling config "0x0" ∅ (PyInt 10) false)
    as [Hobtained _].
  - reflexivity.
  - apply (Hobtained (PyFloat 0.002) (PyFloat 0.02) (PyFloat 20) 20);
      reflexivity.
Defined.

(** The CO2 saved is not the rounded product.  With [energy = 1] and
    [accumulated_co2 = 0.00390625] (1/256, exact in binary64) the scaled
    product is 3.90625: rounding gives 4, the payload holds 3. *)
Lemma co2_saved_not_rounded :
  let config :=
    {| InputConfiguration.energy :=
         {| ExternalDataSource.read_state :=
              Return (External
                        (EnergyData {| Device.is_accumulated := true |}
                                    (PyInt 1))) |};
       InputConfiguration.carbon_emission :=
         {| ExternalDataSource.read_state :=
              Return (External
                        (CarbonEmissionData (PyFloat 0.00390625))) |} |} in
  exists p d,
    read_production_data config "0x0" ∅ = Return p
    /\ ProductionFileData.produced p = Some d
    /\ ProducedChainData.energy d = PyInt 1
    /\ (x ← py_mul (PyInt 1) (PyFloat 0.00390625); py_mul x (PyInt 1000)) =
       Return (PyFloat 3.90625)
    /\ py_round_spec (PyFloat 3.90625) = Return 4
    /\ ProducedChainData.co2_saved d = 3
    /\ ProducedChainData.co2_saved d <> 4.
Proof.
  intros config. eexists. eexists.
  split; [reflexivity |]. split; [reflexivity |].
  repeat split; try reflexivity.
  vm_compute. discriminate.
Qed.

(** With no energy, a finite carbon reading scales to 0. *)
Lemma co2_lines_no_energy (c : number) :
  is_finite_number c = true ->
  co2_lines (PyInt 0) (Some (CarbonEmissionData c)) = Return 0.
Proof.
  destruct c as [z | g]; cbn [is_finite_number]; intros Hfin.
  - reflexivity.
  - cbn -[PrimFloat.mul Prim2SF].
    change (float_of_int 0) with (Return 0%float).
    cbn -[PrimFloat.mul Prim2SF].
    change (float_of_int (10 ^ Z.of_nat 3)) with (Return 1000%float).
    cbn -[PrimFloat.mul Prim2SF].
    unfold int_of_float. rewrite !mul_spec.
    change (Prim2SF 0) with (S754_zero false).
    change (Prim2SF 1000) with (S754_finite false 8796093022208000 (-43)).
    destruct (Prim2SF g) as [s | s | | s m e]; try discriminate; reflexivity.
Qed.

(** C5. A source whose [read_state] raises, or returns an object that
    is not an [ExternalData], counts as an absent reading: the fetch
    returns None, and both ingestion functions return a payload with
    [energy = 0], [is_meter_down = true] and [previous_hash = last_hash].
    For the production payload the carbon source is one that fails too or
    returns a finite carbon reading. *)
Theorem failed_source_is_absent_reading
    (config : InputConfiguration.t) (last_hash : string)
    (last_state : gmap string number) :
  source_fails (InputConfiguration.energy config) ->
  __fetch_input_data (InputConfiguration.energy config) = Return None
  /\ read_consumption_data config last_hash last_state =
       Return
         {| ConsumptionFileData.raw_energy := None;
            ConsumptionFileData.consumed :=
              Some {| ConsumedChainData.energy := PyInt 0;
                      ConsumedChainData.previous_hash := last_hash;
                      ConsumedChainData.is_meter_down := true |} |}
  /\ (carbon_usable (InputConfiguration.carbon_emission config) ->
      exists p d,
        read_production_data config last_hash last_state = Return p
        /\ ProductionFileData.raw_energy p = None
        /\ ProductionFileData.produced p = Some d
        /\ ProducedChainData.energy d = PyInt 0
        /\ ProducedChainData.is_meter_down d = true
        /\ ProducedChainData.previous_hash d = last_hash).
Proof.
  intros Hfail. apply reading_of_failed in Hfail.
  split; [| split].
  - rewrite fetch_input_data_total, Hfail. reflexivity.
  - rewrite read_consumption_data_lines, Hfail. reflexivity.
  - intros Hcarbon.
    rewrite read_production_data_lines, Hfail.
    cbn [energy_lines mbind result_bind].
    unfold carbon_usable in Hcarbon.
    destruct (reading_of (InputConfiguration.carbon_emission config))
      as [[dev e | c] |].
    + destruct Hcarbon.
    + rewrite (co2_lines_no_energy c Hcarbon). cbn. eauto 10.
    + cbn. eauto 10.
Qed.

(** The energy source times out and the carbon source answers. *)
Lemma failed_source_is_absent_reading_witness :
  let config :=
    {| InputConfiguration.energy :=
         {| ExternalDataSource.read_state :=
              Raise (OtherException "timeout") |};
       InputConfiguration.carbon_emission :=
         {| ExternalDataSource.read_state :=
              Return (External (CarbonEmissionData (PyFloat 0.002))) |} |} in
  __fetch_input_data (InputConfiguration.energy config) = Return None
  /\ read_consumption_data config "QmPrev" ∅ =
       Return
         {| ConsumptionFileData.raw_energy := None;
            ConsumptionFileData.consumed :=
              Some {| ConsumedChainData.energy := PyInt 0;
                      ConsumedChainData.previous_hash := "QmPrev";
                      ConsumedChainData.is_meter_down := true |} |}
  /\ exists p d,
       read_production_data config "QmPrev" ∅ = Return p
       /\ ProductionFileData.raw_energy p = None
       /\ ProductionFileData.produced p = Some d
       /\ ProducedChainData.energy d = PyInt 0
       /\ ProducedChainData.is_meter_down d = true
       /\ ProducedChainData.previous_hash d = "QmPrev".
Proof.
  intros config.
  destruct (failed_source_is_absent_reading config "QmPrev" ∅ I)
    as (Hfetch & Hcons & Hprod).
  split; [exact Hfetch |]. split; [exact Hcons |].
  apply Hprod. reflexivity.
Defined.

(** ** The file store: results *)

(** Unfolding of the sequencing of [io]. *)
Ltac io_step :=
  unfold mbind, mret, io_bind, io_ret, gets, modify, lift, raise; cbn beta iota.

Section Storage.
Context {RT : Runtime}.
Import DiskStorage.

Lemma makedirs_ok (w : World) (p : string) :
  p ∉ denied w -> os.makedirs p w = (Return tt, with_dir w p).
Proof.
  intros Hp. unfold os.makedirs. rewrite bool_decide_eq_false_2 by exact Hp.
  reflexivity.
Qed.

Lemma write_bytes_ok (w : World) (p : string) (b : list byte) :
  p ∉ denied w -> os.write_bytes p b w = (Return tt, with_file w p b).
Proof.
  intros Hp. unfold os.write_bytes.
  rewrite bool_decide_eq_false_2 by exact Hp. reflexivity.
Qed.

Lemma write_bytes_denied (w : World) (p : string) (b : list byte) :
  p ∈ denied w -> os.write_bytes p b w = (Raise OSError, w).
Proof.
  intros Hp. unfold os.write_bytes.
  rewrite bool_decide_eq_true_2 by exact Hp. reflexivity.
Qed.

(** Making sure of a directory that is ready does not raise. *)
Lemma ensure_dir_ok (w : World) (p : string) :
  dir_ready w p ->
  (e ← os.path_exists p;
   if negb e then os.makedirs p else mret tt) w =
  (Return tt, ensure_dir w p).
Proof.
  intros Hready. unfold ensure_dir, os.path_exists. io_step.
  destruct (exists_path w p) eqn:He; cbn.
  - reflexivity.
  - destruct Hready as [H | H]; [congruence |].
    apply makedirs_ok, H.
Qed.

Lemma save_file_ok (st : State) (payload : LocalFileData) :
  let w := world st in
  let prefix := payload_prefix (self st) payload in
  let name := payload_name (self st) payload (clock w (ticks w)) in
  dir_ready w prefix ->
  name ∉ denied w ->
  __save_file payload st =
  (Return name,
   {| world := with_file (tick (ensure_dir w prefix)) name
                         (json_dump payload);
      self := self st |}).
Proof.
  intros w prefix name Hdir Hname.
  unfold __save_file. io_step. unfold in_world, os.path_exists, os.now.
  io_step.
  change (match payload with
          | Production _ => path (self st) +:+ "production/"
          | Consumption _ => path (self st) +:+ "consumption/"
          end) with prefix.
  unfold ensure_dir. fold w.
  destruct (exists_path w prefix) eqn:He; cbn [negb].
  - cbn. rewrite write_bytes_ok by exact Hname. reflexivity.
  - destruct Hdir as [H | H]; [congruence |].
    rewrite makedirs_ok by exact H. cbn.
    rewrite write_bytes_ok by exact Hname. reflexivity.
Qed.

Lemma denied_ensure_dir (w : World) (p : string) :
  denied (ensure_dir w p) = denied w.
Proof. unfold ensure_dir. destruct (exists_path w p); reflexivity. Qed.

Lemma clock_ensure_dir (w : World) (p : string) :
  clock (ensure_dir w p) = clock w.
Proof. unfold ensure_dir. destruct (exists_path w p); reflexivity. Qed.

Lemma ticks_ensure_dir (w : World) (p : string) :
  ticks (ensure_dir w p) = ticks w.
Proof. unfold ensure_dir. destruct (exists_path w p); reflexivity. Qed.

Lemma save_memory_ok (st : State) :
  chain_file (self st) ∉ denied (world st) ->
  __save_memory st =
  (Return tt,
   {| world := with_file (world st) (chain_file (self st))
                         (pickle_dump (__memory (self st)));
      self := self st |}).
Proof.
  intros Hstore. unfold __save_memory. io_step. unfold in_world.
  rewrite write_bytes_ok by exact Hstore. reflexivity.
Qed.

Lemma save_memory_denied (st : State) :
  chain_file (self st) ∈ denied (world st) ->
  __save_memory st = (Raise OSError, st).
Proof.
  intros Hstore. unfold __save_memory. io_step. unfold in_world.
  rewrite write_bytes_denied by exact Hstore. destruct st; reflexivity.
Qed.

(** The state after a call of [add_to_chain] whose writes go through. *)
Lemma add_to_chain_ok (st : State) (payload : LocalFileData) :
  let w := world st in
  let prefix := payload_prefix (self st) payload in
  let name := payload_name (self st) payload (clock w (ticks w)) in
  let link :=
    mkChainLink {| ChainFile.file := name;
                   ChainFile.timestamp := clock w (S (ticks w)) |}
                (head st) in
  let store := pickle_dump (Some link) in
  dir_ready w prefix ->
  name ∉ denied w ->
  chain_file (self st) ∉ denied w ->
  add_to_chain payload st =
  (Return name,
   {| world :=
        with_file
          (with_file
             (tick (with_file (tick (ensure_dir w prefix)) name
                              (json_dump payload)))
             (chain_file (self st)) store)
          (chain_file (self st)) store;
      self := {| chain_file := chain_file (self st);
                 path := path (self st);
                 __memory := Some link |} |}).
Proof.
  intros w prefix name link store Hdir Hname Hstore.
  unfold add_to_chain. unfold mbind at 1, io_bind at 1.
  rewrite save_file_ok by assumption.
  fold w prefix name. io_step.
  unfold in_world, os.now, chain, __chain_append, set_memory. io_step.
  cbn [world self].
  rewrite save_memory_ok
    by (cbn; rewrite denied_ensure_dir; exact Hstore).
  cbn [world self chain_file __memory].
  rewrite save_memory_ok
    by (cbn; rewrite denied_ensure_dir; exact Hstore).
  cbn [world self chain_file __memory with_file tick clock ticks].
  rewrite clock_ensure_dir, ticks_ensure_dir. reflexivity.
Qed.

Lemma add_to_chain_appended (st : State) (payload : LocalFileData) :
  let w := world st in
  let name := payload_name (self st) payload (clock w (ticks w)) in
  dir_ready w (payload_prefix (self st) payload) ->
  name ∉ denied w ->
  chain_file (self st) ∉ denied w ->
  exists st' link,
    add_to_chain payload st = (Return name, st')
    /\ appended st payload name st' link
    /\ denied (world st') = denied w
    /\ clock (world st') = clock w
    /\ ticks (world st') = S (S (ticks w))
    /\ (forall p, dir_ready w p -> dir_ready (world st') p).
Proof.
  intros w name Hdir Hname Hstore.
  eexists. eexists. split; [apply add_to_chain_ok; assumption |].
  fold w name. split; [| split; [| split; [| split]]].
  - unfold appended, head, store_file. cbn.
    repeat split.
    + apply lookup_insert_eq.
    + intros Hne. rewrite !lookup_insert_ne by congruence.
      apply lookup_insert_eq.
  - cbn. apply denied_ensure_dir.
  - cbn. apply clock_ensure_dir.
  - cbn. rewrite ticks_ensure_dir. reflexivity.
  - intros p [Hp | Hp]; [left | right].
    + unfold exists_path in *. cbn.
      apply orb_true_iff in Hp. apply orb_true_iff.
      destruct Hp as [Hp | Hp]; [left | right];
        apply bool_decide_eq_true in Hp; apply bool_decide_eq_true.
      * unfold ensure_dir. destruct (exists_path w _); cbn; set_solver.
      * rewrite !dom_insert_L.
        unfold ensure_dir. destruct (exists_path w _); cbn; set_solver.
    + cbn. rewrite denied_ensure_dir. exact Hp.
Qed.

(** C1. [add_to_chain] writes the payload to the file it names, makes
    the head a link to that file whose previous link is the old head,
    leaves the pickled head in the store file and returns the name of
    the payload file; after [add_to_chain(p1)] and [add_to_chain(p2)]
    the previous link of the head is the link made for [p1]. *)
Theorem add_to_chain_links (st : State) (p1 p2 : LocalFileData) :
  let w := world st in
  let name1 := payload_name (self st) p1 (clock w (ticks w)) in
  let name2 := payload_name (self st) p2 (clock w (S (S (ticks w)))) in
  dir_ready w (payload_prefix (self st) p1) ->
  dir_ready w (payload_prefix (self st) p2) ->
  name1 ∉ denied w ->
  name2 ∉ denied w ->
  chain_file (self st) ∉ denied w ->
  exists st1 st2 link1 link2,
    add_to_chain p1 st = (Return name1, st1)
    /\ appended st p1 name1 st1 link1
    /\ add_to_chain p2 st1 = (Return name2, st2)
    /\ appended st1 p2 name2 st2 link2
    /\ last_link link2 = Some link1.
Proof.
  intros w name1 name2 Hdir1 Hdir2 Hname1 Hname2 Hstore.
  destruct (add_to_chain_appended st p1 Hdir1 Hname1 Hstore)
    as (st1 & link1 & Hrun1 & Happ1 & Hden & Hclock & Hticks & Hready).
  pose proof Happ1 as (Hhead1 & _ & _ & _ & _ & Hcf & Hpath).
  assert (Hprefix : payload_prefix (self st1) p2 =
                    payload_prefix (self st) p2)
    by (unfold payload_prefix; rewrite Hpath; reflexivity).
  assert (Hname : payload_name (self st1) p2
                    (clock (world st1) (ticks (world st1))) = name2)
    by (unfold payload_name, name2; rewrite Hprefix, Hclock, Hticks;
        reflexivity).
  destruct (add_to_chain_appended st1 p2) as (st2 & link2 & Hrun2 & Happ2 & _).
  - rewrite Hprefix. apply Hready, Hdir2.
  - rewrite Hname, Hden. exact Hname2.
  - rewrite Hcf, Hden. exact Hstore.
  - rewrite Hname in Hrun2, Happ2.
    exists st1, st2, link1, link2.
    repeat (split; [assumption |]).
    destruct Happ2 as (_ & _ & Hlast & _). rewrite Hlast. exact Hhead1.
Qed.

End Storage.

(** Two appends on a fresh store. *)
Lemma add_to_chain_links_witness :
  let st :=
    {| DiskStorage.world := Scenario.fresh_world;
       DiskStorage.self := Scenario.storage |} in
  exists st1 st2 link1 link2,
    DiskStorage.add_to_chain Scenario.meter_down st =
      (Return "/data/consumption/2018-03-09-14:05:00.json", st1)
    /\ appended st Scenario.meter_down
         "/data/consumption/2018-03-09-14:05:00.json" st1 link1
    /\ DiskStorage.add_to_chain Scenario.produced_17 st1 =
         (Return "/data/production/2018-03-09-14:05:02.json", st2)
    /\ appended st1 Scenario.produced_17
         "/data/production/2018-03-09-14:05:02.json" st2 link2
    /\ last_link link2 = Some link1.
Proof.
  intros st.
  exact (add_to_chain_links st Scenario.meter_down Scenario.produced_17
           (or_intror (not_elem_of_empty _)) (or_intror (not_elem_of_empty _))
           (not_elem_of_empty _) (not_elem_of_empty _) (not_elem_of_empty _)).
Defined.

(** ** The hash address *)

Lemma sha1_digest_length (msg : list byte) : length (SHA1.hash msg) = 20%nat.
Proof.
  unfold SHA1.hash.
  destruct (fold_left SHA1.compress _ SHA1.init) as [[[[h0 h1] h2] h3] h4].
  reflexivity.
Qed.

(** A fresh hasher fed once gives the SHA-1 of what it was fed. *)
Lemma hashlib_fresh_digest (b : list byte) :
  hashlib.digest (hashlib.update hashlib.sha1 b) = SHA1.hash b.
Proof. reflexivity. Qed.

(** The test vectors of FIPS 180 for [abc] and for the empty message. *)
Example sha1_abc :
  map SHA1.Z_of_byte (SHA1.hash (list_byte_of_string "abc")) =
  [0xa9; 0x99; 0x3e; 0x36; 0x47; 0x06; 0x81; 0x6a; 0xba; 0x3e;
   0x25; 0x71; 0x78; 0x50; 0xc2; 0x6c; 0x9c; 0xd0; 0xd8; 0x9d].
Proof. vm_compute. reflexivity. Qed.

Example sha1_empty :
  map SHA1.Z_of_byte (SHA1.hash []) =
  [0xda; 0x39; 0xa3; 0xee; 0x5e; 0x6b; 0x4b; 0x0d; 0x32; 0x55;
   0xbf; 0xef; 0x95; 0x60; 0x18; 0x90; 0xaf; 0xd8; 0x07; 0x09].
Proof. vm_compute. reflexivity. Qed.

Section Hashing.
Context {RT : Runtime}.
Import DiskStorage.

Lemma get_last_hash_empty (st : State) :
  head st = None -> get_last_hash st = (Return "0x0", st).
Proof.
  intros Hhead. unfold get_last_hash, chain. io_step.
  unfold head in Hhead. rewrite Hhead. reflexivity.
Qed.

Lemma get_last_hash_head (st : State) (link : ChainLink) (b : list byte) :
  head st = Some link ->
  files (world st) !! ChainFile.file (data link) = Some b ->
  get_last_hash st = (Return ("Qm" +:+ b58encode (SHA1.hash b)), st).
Proof.
  intros Hhead Hfile. unfold get_last_hash, chain. io_step.
  unfold head in Hhead. rewrite Hhead.
  unfold in_world, os.read_bytes. rewrite Hfile.
  destruct st; reflexivity.
Qed.

(** C2. [get_last_hash] returns ["0x0"] on an empty chain; on a chain
    with a head whose file can be read it returns ["Qm"] followed by the
    base-58 encoding of the SHA-1 digest, 20 bytes of 8 bits, of the
    bytes of that file. *)
Theorem get_last_hash_address (st : State) :
  (head st = None -> get_last_hash st = (Return "0x0", st))
  /\ (forall (link : ChainLink) (b : list byte),
        head st = Some link ->
        files (world st) !! ChainFile.file (data link) = Some b ->
        get_last_hash st =
          (Return ("Qm" +:+ b58encode (SHA1.hash b)), st)
        /\ length (SHA1.hash b) = 20%nat
        /\ String.length "Qm" = 2%nat).
Proof.
  split.
  - apply get_last_hash_empty.
  - intros link b Hhead Hfile. split; [| split].
    + apply (get_last_hash_head st link b Hhead Hfile).
    + apply sha1_digest_length.
    + reflexivity.
Qed.

(** C9. The address is a function of the bytes of the head's file: two
    stores in any two states whose head files hold the same bytes get
    the same address, and computing it leaves the state as it was, so a
    second computation gives the same string. *)
Theorem hash_address_deterministic (st1 st2 : State)
    (link1 link2 : ChainLink) (b : list byte) :
  head st1 = Some link1 ->
  head st2 = Some link2 ->
  files (world st1) !! ChainFile.file (data link1) = Some b ->
  files (world st2) !! ChainFile.file (data link2) = Some b ->
  (get_last_hash st1).1 = (get_last_hash st2).1
  /\ (get_last_hash st1).2 = st1
  /\ (get_last_hash st2).2 = st2
  /\ (_ ← get_last_hash; get_last_hash) st1 = get_last_hash st1.
Proof.
  intros Hhead1 Hhead2 Hfile1 Hfile2.
  pose proof (get_last_hash_head st1 link1 b Hhead1 Hfile1) as H1.
  pose proof (get_last_hash_head st2 link2 b Hhead2 Hfile2) as H2.
  unfold mbind, io_bind. rewrite H1, H2. cbn [fst snd].
  rewrite H1. auto.
Qed.

End Hashing.

Lemma get_last_hash_address_witness :
  DiskStorage.get_last_hash
    {| DiskStorage.world := Scenario.fresh_world;
       DiskStorage.self := Scenario.storage |} =
    (Return "0x0",
     {| DiskStorage.world := Scenario.fresh_world;
        DiskStorage.self := Scenario.storage |})
  /\ DiskStorage.get_last_hash Scenario.abc_state =
       (Return "Qm3N3SPh7RsDDNbZDaMRaauXML5RG8", Scenario.abc_state)
  /\ length (SHA1.hash (list_byte_of_string "abc")) = 20%nat
  /\ String.length "Qm" = 2%nat.
Proof.
  split.
  - apply (proj1 (get_last_hash_address
                    {| DiskStorage.world := Scenario.fresh_world;
                       DiskStorage.self := Scenario.storage |})).
    reflexivity.
  - exact (proj2 (get_last_hash_address Scenario.abc_state)
             Scenario.abc_link (list_byte_of_string "abc")
             eq_refl eq_refl).
Defined.

Lemma hash_address_deterministic_witness :
  (DiskStorage.get_last_hash Scenario.abc_state).1 =
  (DiskStorage.get_last_hash Scenario.abc_state').1
  /\ (DiskStorage.get_last_hash Scenario.abc_state).2 = Scenario.abc_state
  /\ (DiskStorage.get_last_hash Scenario.abc_state').2 = Scenario.abc_state'
  /\ (_ ← DiskStorage.get_last_hash; DiskStorage.get_last_hash)
       Scenario.abc_state =
     DiskStorage.get_last_hash Scenario.abc_state.
Proof.
  eapply (hash_address_deterministic Scenario.abc_state Scenario.abc_state');
    reflexivity.
Defined.

(** ** The setter of the head *)

Section Setter.
Context {RT : Runtime}.
Import DiskStorage.

(** C8. Assigning a value that is not None to [chain] raises
    AttributeError and leaves the storage object and the files as they
    were. *)
Theorem chain_setter_rejects_link (st : State) (link : ChainLink) :
  chain_setter (Some link) st = (Raise AttributeError, st)
  /\ head (chain_setter (Some link) st).2 = head st
  /\ store_file (chain_setter (Some link) st).2 = store_file st.
Proof.
  assert (Hraise : chain_setter (Some link) st = (Raise AttributeError, st)).
  { unfold chain_setter, raise. reflexivity. }
  rewrite Hraise. cbn [snd]. auto.
Qed.

(** C10. Assigning None to [chain] is accepted: the head becomes empty,
    the store file is overwritten with the pickle of the empty chain,
    and [get_last_hash] then returns ["0x0"]. *)
Theorem chain_setter_none_resets (st : State) :
  chain_file (self st) ∉ denied (world st) ->
  exists st',
    chain_setter None st = (Return tt, st')
    /\ head st' = None
    /\ store_file st' = Some (pickle_dump None)
    /\ get_last_hash st' = (Return "0x0", st').
Proof.
  intros Hstore. eexists. split; [| split; [| split]].
  - unfold chain_setter, __chain_append, set_memory.
    unfold mbind at 1, io_bind at 1, modify.
    rewrite save_memory_ok by exact Hstore. reflexivity.
  - reflexivity.
  - unfold store_file. cbn. apply lookup_insert_eq.
  - apply get_last_hash_empty. reflexivity.
Qed.

End Setter.

(** A chain of one link is dropped by [chain = None]. *)
Lemma chain_setter_none_resets_witness :
  head Scenario.abc_state = Some Scenario.abc_link
  /\ exists st',
       DiskStorage.chain_setter None Scenario.abc_state = (Return tt, st')
       /\ head st' = None
       /\ store_file st' = Some (pickle_dump None)
       /\ DiskStorage.get_last_hash st' = (Return "0x0", st').
Proof.
  split; [reflexivity |].
  exact (chain_setter_none_resets Scenario.abc_state (not_elem_of_empty _)).
Defined.

(** ** A store file that cannot be written *)

Section StoreWriteFails.
Context {RT : Runtime}.
Import DiskStorage.

(** C7, as the code has it.  When the write of the store file fails,
    [add_to_chain] raises the OSError of the write; the payload file
    has been written and the head in memory is already the new link,
    whose previous link is the old head; the store file is as it
    was. *)
Theorem add_to_chain_store_write_fails (st : State)
    (payload : LocalFileData) :
  let w := world st in
  let name := payload_name (self st) payload (clock w (ticks w)) in
  dir_ready w (payload_prefix (self st) payload) ->
  name ∉ denied w ->
  chain_file (self st) ∈ denied w ->
  exists st' link,
    add_to_chain payload st = (Raise OSError, st')
    /\ head st' = Some link
    /\ ChainFile.file (data link) = name
    /\ last_link link = head st
    /\ store_file st' = store_file st
    /\ files (world st') !! name = Some (json_dump payload).
Proof.
  intros w name Hdir Hname Hstore.
  assert (Hne : name <> chain_file (self st)) by congruence.
  eexists. eexists. split; [| split; [| split; [| split; [| split]]]].
  - unfold add_to_chain. unfold mbind at 1, io_bind at 1.
    rewrite save_file_ok by assumption.
    fold w name. io_step.
    unfold in_world, os.now, chain, __chain_append, set_memory. io_step.
    cbn [world self].
    rewrite save_memory_denied
      by (cbn; rewrite denied_ensure_dir; exact Hstore).
    reflexivity.
  - reflexivity.
  - reflexivity.
  - reflexivity.
  - unfold store_file. cbn. rewrite lookup_insert_ne by exact Hne.
    unfold ensure_dir. destruct (exists_path w _); reflexivity.
  - cbn. apply lookup_insert_eq.
Qed.

End StoreWriteFails.

Lemma add_to_chain_store_write_fails_witness :
  let st :=
    {| DiskStorage.world := Scenario.readonly_store_world;
       DiskStorage.self := Scenario.storage |} in
  exists st' link,
    DiskStorage.add_to_chain Scenario.meter_down st = (Raise OSError, st')
    /\ head st' = Some link
    /\ ChainFile.file (data link) =
         "/data/consumption/2018-03-09-14:05:00.json"
    /\ last_link link = head st
    /\ store_file st' = store_file st
    /\ files (DiskStorage.world st')
         !! "/data/consumption/2018-03-09-14:05:00.json" =
       Some (json_dump Scenario.meter_down).
Proof.
  intros st.
  refine (add_to_chain_store_write_fails st Scenario.meter_down
            (or_intror _) _ _).
  - vm_compute. set_solver.
  - vm_compute. set_solver.
  - vm_compute. set_solver.
Defined.

(** The head moves although the store file could not be written: on an
    empty chain whose store file is read-only, [add_to_chain] raises and
    the head is no longer empty. *)
Lemma add_to_chain_failed_write_moves_head :
  let st :=
    {| DiskStorage.world := Scenario.readonly_store_world;
       DiskStorage.self := Scenario.storage |} in
  exists st',
    DiskStorage.add_to_chain Scenario.meter_down st = (Raise OSError, st')
    /\ head st = None
    /\ head st' =
         Some (mkChainLink
                 {| ChainFile.file :=
                      "/data/consumption/2018-03-09-14:05:00.json";
                    ChainFile.timestamp := Scenario.seconds 1 |}
                 None)
    /\ head st' <> head st.
Proof.
  intros st. eexists. split; [| split; [| split]].
  - vm_compute. reflexivity.
  - reflexivity.
  - reflexivity.
  - discriminate.
Qed.

(** ** Loading the store file *)

Section Loading.
Context {RT : Runtime}.
Import DiskStorage.

Lemma files_ensure_dir (w : World) (p : string) :
  files (ensure_dir w p) = files w.
Proof. unfold ensure_dir. destruct (exists_path w p); reflexivity. Qed.

(** [__init__] up to the unpickling of a store file that is there. *)
Lemma init_loads (chain_file_name path_to_files : string) (w : World)
    (b : list byte) :
  let store := path_to_files +:+ chain_file_name in
  dir_ready w path_to_files ->
  files w !! store = Some b ->
  __init__ chain_file_name path_to_files w =
  match pickle_load b with
  | Return m =>
      (Return {| chain_file := store; path := path_to_files;
                 __memory := m |},
       ensure_dir w path_to_files)
  | Raise e =>
      if is_EOFError e then
        (Return {| chain_file := store; path := path_to_files;
                   __memory := None |},
         ensure_dir w path_to_files)
      else (Raise e, ensure_dir w path_to_files)
  end.
Proof.
  intros store Hdir Hfile.
  unfold __init__. unfold mbind at 1, io_bind at 1.
  pose proof (ensure_dir_ok w path_to_files Hdir) as Hensure.
  unfold mbind at 1, io_bind at 1 in Hensure.
  destruct (os.path_exists path_to_files w) as [[e | e] w0] eqn:Hexists;
    [| discriminate Hensure].
  unfold mbind at 1, io_bind at 1. rewrite Hensure.
  fold store. unfold os.path_exists at 1. io_step.
  assert (Hthere : exists_path (ensure_dir w path_to_files) store = true).
  { unfold exists_path. apply orb_true_iff. right.
    apply bool_decide_eq_true. rewrite files_ensure_dir.
    apply elem_of_dom. eauto. }
  rewrite Hthere. cbn [negb].
  unfold try_catch, os.read_bytes. rewrite files_ensure_dir, Hfile.
  destruct (pickle_load b) as [m | e']; reflexivity.
Qed.

(** C6, as the code has it.  A store file whose unpickling ends in
    EOFError, a zero-length file in particular, gives an empty chain;
    any other error of the unpickler comes out of [__init__]. *)
Theorem init_recovers_from_eof_only (chain_file_name path_to_files : string)
    (w : World) (b : list byte) :
  let store := path_to_files +:+ chain_file_name in
  let empty :=
    {| chain_file := store; path := path_to_files; __memory := None |} in
  dir_ready w path_to_files ->
  files w !! store = Some b ->
  (b = [] ->
   __init__ chain_file_name path_to_files w =
     (Return empty, ensure_dir w path_to_files))
  /\ (pickle_load b = Raise EOFError ->
      __init__ chain_file_name path_to_files w =
        (Return empty, ensure_dir w path_to_files))
  /\ (forall e : exn,
        pickle_load b = Raise e ->
        e <> EOFError ->
        __init__ chain_file_name path_to_files w =
          (Raise e, ensure_dir w path_to_files)).
Proof.
  intros store empty Hdir Hfile.
  pose proof (init_loads chain_file_name path_to_files w b Hdir Hfile)
    as Hinit.
  fold store in Hinit. split; [| split].
  - intros ->. rewrite pickle_load_empty in Hinit. exact Hinit.
  - intros Hload. rewrite Hload in Hinit. exact Hinit.
  - intros e Hload Hne. rewrite Hload in Hinit.
    destruct e; try exact Hinit. congruence.
Qed.

End Loading.

(** An empty store file gives an empty chain. *)
Lemma init_recovers_from_eof_only_witness :
  DiskStorage.__init__ "chain.pkl" "/data/" Scenario.empty_store_world =
  (Return Scenario.storage, Scenario.empty_store_world).
Proof.
  refine (proj1 (init_recovers_from_eof_only "chain.pkl" "/data/"
                   Scenario.empty_store_world [] (or_introl _) _) _);
    reflexivity.
Defined.

(** A store file that holds one zero byte is not a pickle: the unpickler
    raises UnpicklingError, "invalid load key", which [except EOFError]
    does not catch, and the constructor fails. *)
Lemma init_fails_on_corrupt_store :
  files Scenario.corrupt_store_world !! "/data/chain.pkl" = Some [x00]
  /\ DiskStorage.__init__ "chain.pkl" "/data/" Scenario.corrupt_store_world =
     (Raise UnpicklingError, Scenario.corrupt_store_world)
  /\ forall s : DiskStorage.t,
       DiskStorage.__init__ "chain.pkl" "/data/" Scenario.corrupt_store_world
       <> (Return s, Scenario.corrupt_store_world).
Proof.
  split; [reflexivity |]. split; [reflexivity |].
  intros s H. vm_compute in H. discriminate H.
Qed.


(** ** Further results: the data ingestor *)

(** X1. A device that does not accumulate needs
    [last_state['last_meter_read']]: without the key both functions raise
    KeyError, which is not absorbed like a failure of the source. *)
Theorem missing_last_meter_read_raises
    (config : InputConfiguration.t) (last_hash : string)
    (last_state : gmap string number)
    (device : Device.t) (energy : number) :
  ExternalDataSource.read_state (InputConfiguration.energy config) =
    Return (External (EnergyData device energy)) ->
  Device.is_accumulated device = false ->
  last_state !! "last_meter_read" = None ->
  read_consumption_data config last_hash last_state = Raise KeyError
  /\ read_production_data config last_hash last_state = Raise KeyError.
Proof.
  intros Hread Hacc Hkey.
  assert (Hr : reading_of (InputConfiguration.energy config) =
               Some (EnergyData device energy))
    by (unfold reading_of; rewrite Hread; reflexivity).
  assert (Hlines : energy_lines (Some (EnergyData device energy)) last_state
                   = Raise KeyError).
  { cbn. rewrite Hacc. cbn. unfold getitem. rewrite Hkey. reflexivity. }
  split.
  - rewrite read_consumption_data_lines, Hr, Hlines. reflexivity.
  - rewrite read_production_data_lines, Hr, Hlines. reflexivity.
Qed.

Lemma missing_last_meter_read_raises_witness :
  let config :=
    {| InputConfiguration.energy :=
         {| ExternalDataSource.read_state :=
              Return (External
                        (EnergyData {| Device.is_accumulated := false |}
                                    (PyInt 5))) |};
       InputConfiguration.carbon_emission :=
         {| ExternalDataSource.read_state :=
              Raise (OtherException "timeout") |} |} in
  read_consumption_data config "0x0" ∅ = Raise KeyError
  /\ read_production_data config "0x0" ∅ = Raise KeyError.
Proof.
  intros config.
  apply (missing_last_meter_read_raises config "0x0" ∅
           {| Device.is_accumulated := false |} (PyInt 5));
    reflexivity.
Defined.

(** X2. With the energy source down, a carbon reading that is NaN or an
    infinity makes [read_production_data] raise ValueError: the product
    with the energy 0 is NaN, which [int()] refuses. *)
Theorem non_finite_carbon_reading_raises
    (config : InputConfiguration.t) (last_hash : string)
    (last_state : gmap string number) (g : float) :
  source_fails (InputConfiguration.energy config) ->
  ExternalDataSource.read_state (InputConfiguration.carbon_emission config) =
    Return (External (CarbonEmissionData (PyFloat g))) ->
  is_finite_number (PyFloat g) = false ->
  read_production_data config last_hash last_state = Raise ValueError.
Proof.
  intros Hfail Hread Hfin. apply reading_of_failed in Hfail.
  assert (Hr : reading_of (InputConfiguration.carbon_emission config) =
               Some (CarbonEmissionData (PyFloat g)))
    by (unfold reading_of; rewrite Hread; reflexivity).
  rewrite read_production_data_lines, Hfail, Hr.
  cbn -[PrimFloat.mul Prim2SF].
  change (float_of_int 0) with (Return 0%float).
  cbn -[PrimFloat.mul Prim2SF].
  change (float_of_int (10 ^ Z.of_nat 3)) with (Return 1000%float).
  cbn -[PrimFloat.mul Prim2SF].
  unfold int_of_float. rewrite !mul_spec.
  change (Prim2SF 0) with (S754_zero false).
  change (Prim2SF 1000) with (S754_finite false 8796093022208000 (-43)).
  cbn [is_finite_number] in Hfin.
  destruct (Prim2SF g) as [s | s | | s m e]; try discriminate; reflexivity.
Qed.

Lemma non_finite_carbon_reading_raises_witness :
  read_production_data
    {| InputConfiguration.energy :=
         {| ExternalDataSource.read_state :=
              Raise (OtherException "timeout") |};
       InputConfiguration.carbon_emission :=
         {| ExternalDataSource.read_state :=
              Return (External (CarbonEmissionData (PyFloat infinity))) |} |}
    "0x0" ∅ = Raise ValueError.
Proof.
  apply (non_finite_carbon_reading_raises _ "0x0" ∅ infinity);
    reflexivity.
Defined.

Lemma energy_lines_flag (raw_energy : option ExternalData)
    (last_state : gmap string number) (energy : number) (down : bool) :
  energy_lines raw_energy last_state = Return (energy, down) ->
  (down = true <-> raw_energy = None) /\ (down = true -> energy = PyInt 0).
Proof.
  destruct raw_energy as [[device e | c] |]; cbn.
  - destruct (Device.is_accumulated device); cbn.
    + intros [= <- <-]. split; [split |]; discriminate.
    + destruct (getitem last_state "last_meter_read") as [l | err]; cbn;
        [| discriminate].
      destruct (py_add e l) as [t | err]; cbn; [| discriminate].
      intros [= <- <-]. split; [split |]; discriminate.
  - discriminate.
  - intros [= <- <-]. split; [split |]; reflexivity.
Qed.

Lemma co2_lines_absent (energy : number) (co2 : Z) :
  co2_lines energy None = Return co2 -> co2 = 0.
Proof. cbn. intros [= <-]. reflexivity. Qed.

(** X3. In every payload that comes back, the flags tell what the raw
    readings are: [is_meter_down] holds exactly when there is no raw
    energy reading, and then the energy is 0; [is_co2_down] holds exactly
    when there is no raw carbon reading, and then the CO2 saved is 0; the
    raw readings are what the sources gave, and [previous_hash] is the
    hash passed in. *)
Theorem payload_flags_follow_readings
    (config : InputConfiguration.t) (last_hash : string)
    (last_state : gmap string number) :
  (forall p : ProductionFileData.t,
     read_production_data config last_hash last_state = Return p ->
     ProductionFileData.raw_energy p =
       reading_of (InputConfiguration.energy config)
     /\ ProductionFileData.raw_carbon_emitted p =
          reading_of (InputConfiguration.carbon_emission config)
     /\ exists d,
          ProductionFileData.produced p = Some d
          /\ ProducedChainData.previous_hash d = last_hash
          /\ (ProducedChainData.is_meter_down d = true <->
              ProductionFileData.raw_energy p = None)
          /\ (ProducedChainData.is_meter_down d = true ->
              ProducedChainData.energy d = PyInt 0)
          /\ (ProducedChainData.is_co2_down d = true <->
              ProductionFileData.raw_carbon_emitted p = None)
          /\ (ProducedChainData.is_co2_down d = true ->
              ProducedChainData.co2_saved d = 0))
  /\ (forall c : ConsumptionFileData.t,
        read_consumption_data config last_hash last_state = Return c ->
        ConsumptionFileData.raw_energy c =
          reading_of (InputConfiguration.energy config)
        /\ exists d,
             ConsumptionFileData.consumed c = Some d
             /\ ConsumedChainData.previous_hash d = last_hash
             /\ (ConsumedChainData.is_meter_down d = true <->
                 ConsumptionFileData.raw_energy c = None)
             /\ (ConsumedChainData.is_meter_down d = true ->
                 ConsumedChainData.energy d = PyInt 0)).
Proof.
  split.
  - intros p. rewrite read_production_data_lines.
    destruct (energy_lines _ last_state) as [[energy down] | err] eqn:He;
      cbn; [| discriminate].
    destruct (co2_lines energy _) as [co2 | err] eqn:Hc; cbn;
      [| discriminate].
    intros [= <-]. cbn.
    apply energy_lines_flag in He. destruct He as [Hdown Hzero].
    split; [reflexivity |]. split; [reflexivity |].
    eexists. split; [reflexivity |]. cbn.
    split; [reflexivity |]. split; [exact Hdown |]. split; [exact Hzero |].
    destruct (reading_of (InputConfiguration.carbon_emission config))
      as [r |].
    + split; [split |]; discriminate.
    + apply co2_lines_absent in Hc. split; [split |]; auto.
  - intros c. rewrite read_consumption_data_lines.
    destruct (energy_lines _ last_state) as [[energy down] | err] eqn:He;
      cbn; [| discriminate].
    intros [= <-]. cbn.
    apply energy_lines_flag in He. destruct He as [Hdown Hzero].
    split; [reflexivity |].
    eexists. split; [reflexivity |]. cbn. split; [reflexivity |].
    split; assumption.
Qed.

Lemma payload_flags_follow_readings_witness :
  let config :=
    {| InputConfiguration.energy :=
         {| ExternalDataSource.read_state :=
              Return (NotExternal "None") |};
       InputConfiguration.carbon_emission :=
         {| ExternalDataSource.read_state :=
              Return (External (CarbonEmissionData (PyFloat 0.002))) |} |} in
  exists p d,
    read_production_data config "QmPrev" ∅ = Return p
    /\ ProductionFileData.raw_energy p = None
    /\ ProductionFileData.produced p = Some d
    /\ ProducedChainData.is_meter_down d = true
    /\ ProducedChainData.energy d = PyInt 0
    /\ ProducedChainData.is_co2_down d = false.
Proof.
  intros config.
  destruct (read_production_data config "QmPrev" ∅) as [p | err] eqn:Hrun;
    [| discriminate Hrun].
  destruct (proj1 (payload_flags_follow_readings config "QmPrev" ∅) p Hrun)
    as (Hraw & _ & d & Hd & _ & Hdown & Hzero & Hco2 & _).
  exists p, d. split; [reflexivity |]. split; [exact Hraw |].
  split; [exact Hd |].
  assert (Hm : ProducedChainData.is_meter_down d = true)
    by (apply Hdown; exact Hraw).
  split; [exact Hm |]. split; [exact (Hzero Hm) |].
  injection Hrun as <-. injection Hd as <-. reflexivity.
Defined.

(** X4. On integer readings nothing is rounded and nothing raises: the
    energy is the integer total and the CO2 saved is that total times
    the accumulated CO2 times 1000. *)
Theorem integer_readings_scale_exactly
    (config : InputConfiguration.t) (last_hash : string)
    (last_state : gmap string number)
    (device : Device.t) (reading last co2 : Z) :
  ExternalDataSource.read_state (InputConfiguration.energy config) =
    Return (External (EnergyData device (PyInt reading))) ->
  ExternalDataSource.read_state (InputConfiguration.carbon_emission config) =
    Return (External (CarbonEmissionData (PyInt co2))) ->
  (Device.is_accumulated device = false ->
   last_state !! "last_meter_read" = Some (PyInt last)) ->
  let total :=
    if Device.is_accumulated device then reading else reading + last in
  exists p d,
    read_production_data config last_hash last_state = Return p
    /\ ProductionFileData.produced p = Some d
    /\ ProducedChainData.energy d = PyInt total
    /\ ProducedChainData.co2_saved d = total * co2 * 1000
    /\ ProducedChainData.is_meter_down d = false
    /\ ProducedChainData.is_co2_down d = false.
Proof.
  intros Henergy Hcarbon Hlast total.
  assert (He : reading_of (InputConfiguration.energy config) =
               Some (EnergyData device (PyInt reading)))
    by (unfold reading_of; rewrite Henergy; reflexivity).
  assert (Hc : reading_of (InputConfiguration.carbon_emission config) =
               Some (CarbonEmissionData (PyInt co2)))
    by (unfold reading_of; rewrite Hcarbon; reflexivity).
  rewrite read_production_data_lines, He, Hc. subst total. cbn.
  destruct (Device.is_accumulated device); cbn.
  - eauto 10.
  - unfold getitem. rewrite (Hlast eq_refl). cbn. eauto 10.
Qed.

Lemma integer_readings_scale_exactly_witness :
  let config :=
    {| InputConfiguration.energy :=
         {| ExternalDataSource.read_state :=
              Return (External
                        (EnergyData {| Device.is_accumulated := false |}
                                    (PyInt 5))) |};
       InputConfiguration.carbon_emission :=
         {| ExternalDataSource.read_state :=
              Return (External (CarbonEmissionData (PyInt 2))) |} |} in
  exists p d,
    read_production_data config "0x0" {["last_meter_read" := PyInt 12]} =
      Return p
    /\ ProductionFileData.produced p = Some d
    /\ ProducedChainData.energy d = PyInt 17
    /\ ProducedChainData.co2_saved d = 34000
    /\ ProducedChainData.is_meter_down d = false
    /\ ProducedChainData.is_co2_down d = false.
Proof.
  intros config.
  apply (integer_readings_scale_exactly config "0x0"
           {["last_meter_read" := PyInt 12]}
           {| Device.is_accumulated := false |} 5 12 2);
    reflexivity.
Defined.

(** ** Further results: the file store *)

Section StoreStart.
Context {RT : Runtime}.
Import DiskStorage.

Lemma ensure_dir_exists (w : World) (p : string) :
  exists_path (ensure_dir w p) p = true.
Proof.
  unfold ensure_dir. destruct (exists_path w p) eqn:He; [exact He |].
  unfold exists_path. cbn. apply orb_true_iff. left.
  apply bool_decide_eq_true. set_solver.
Qed.

Lemma ensure_dir_id (w : World) (p : string) :
  exists_path w p = true -> ensure_dir w p = w.
Proof. intros He. unfold ensure_dir. rewrite He. reflexivity. Qed.

(** [__init__] once the directory has been made sure of. *)
Lemma init_after_dir (chain_file_name path_to_files : string) (w : World) :
  let store := path_to_files +:+ chain_file_name in
  let w' := ensure_dir w path_to_files in
  dir_ready w path_to_files ->
  __init__ chain_file_name path_to_files w =
  if exists_path w' store then
    try_catch
      (b ← os.read_bytes store;
       m ← lift (pickle_load b);
       mret {| chain_file := store; path := path_to_files; __memory := m |})
      is_EOFError
      (mret {| chain_file := store; path := path_to_files;
               __memory := None |}) w'
  else
    (Return {| chain_file := store; path := path_to_files;
               __memory := None |}, w').
Proof.
  intros store w' Hdir.
  unfold __init__. unfold mbind at 1, io_bind at 1.
  pose proof (ensure_dir_ok w path_to_files Hdir) as Hensure.
  unfold mbind at 1, io_bind at 1 in Hensure.
  destruct (os.path_exists path_to_files w) as [[e | e] w0] eqn:Hexists;
    [| discriminate Hensure].
  unfold mbind at 1, io_bind at 1. rewrite Hensure.
  fold store w'. unfold os.path_exists at 1.
  unfold mbind at 1, io_bind at 1, gets.
  destruct (exists_path w' store); reflexivity.
Qed.

(** X5. Without a store file the storage starts with an empty chain: the
    directory is created when it is missing, no file is touched, and
    [get_last_hash] on the new storage returns ["0x0"]. *)
Theorem init_without_store_file (chain_file_name path_to_files : string)
    (w : World) :
  let store := path_to_files +:+ chain_file_name in
  let w' := ensure_dir w path_to_files in
  let s := {| chain_file := store; path := path_to_files;
              __memory := None |} in
  dir_ready w path_to_files ->
  exists_path w' store = false ->
  __init__ chain_file_name path_to_files w = (Return s, w')
  /\ files w' = files w
  /\ exists_path w' path_to_files = true
  /\ get_last_hash {| world := w'; self := s |} =
       (Return "0x0", {| world := w'; self := s |}).
Proof.
  intros store w' s Hdir Habsent.
  split; [| split; [| split]].
  - rewrite init_after_dir by exact Hdir. fold store w'.
    rewrite Habsent. reflexivity.
  - apply files_ensure_dir.
  - apply ensure_dir_exists.
  - apply get_last_hash_empty. reflexivity.
Qed.

(** X6. When the directory is missing and cannot be created, [__init__]
    raises the OSError of [os.makedirs] and changes nothing. *)
Theorem init_directory_denied (chain_file_name path_to_files : string)
    (w : World) :
  exists_path w path_to_files = false ->
  path_to_files ∈ denied w ->
  __init__ chain_file_name path_to_files w = (Raise OSError, w).
Proof.
  intros Habsent Hdenied.
  unfold __init__. unfold mbind at 1, io_bind at 1.
  unfold os.path_exists at 1, gets. rewrite Habsent. cbn [negb].
  unfold mbind at 1, io_bind at 1. unfold os.makedirs.
  rewrite bool_decide_eq_true_2 by exact Hdenied. reflexivity.
Qed.

(** X7. A store path that exists without being a regular file, the
    directory itself when the file name is empty, cannot be opened: the
    OSError of [open] is not the EOFError the constructor catches, and
    [__init__] raises it. *)
Theorem init_store_not_a_file (chain_file_name path_to_files : string)
    (w : World) :
  let store := path_to_files +:+ chain_file_name in
  let w' := ensure_dir w path_to_files in
  dir_ready w path_to_files ->
  exists_path w' store = true ->
  files w !! store = None ->
  __init__ chain_file_name path_to_files w = (Raise OSError, w').
Proof.
  intros store w' Hdir Hthere Hfile.
  rewrite init_after_dir by exact Hdir. fold store w'.
  rewrite Hthere. unfold try_catch, os.read_bytes.
  unfold mbind at 1, io_bind at 1.
  unfold w'. rewrite files_ensure_dir, Hfile. reflexivity.
Qed.

End StoreStart.

Lemma init_without_store_file_witness :
  DiskStorage.__init__ "chain.pkl" "/data/" Scenario.fresh_world =
    (Return Scenario.storage, Scenario.fresh_world)
  /\ files Scenario.fresh_world = files Scenario.fresh_world
  /\ exists_path Scenario.fresh_world "/data/" = true
  /\ DiskStorage.get_last_hash
       {| DiskStorage.world := Scenario.fresh_world;
          DiskStorage.self := Scenario.storage |} =
     (Return "0x0",
      {| DiskStorage.world := Scenario.fresh_world;
         DiskStorage.self := Scenario.storage |}).
Proof.
  exact (init_without_store_file "chain.pkl" "/data/" Scenario.fresh_world
           (or_introl eq_refl) eq_refl).
Defined.

Lemma init_directory_denied_witness :
  let w :=
    {| files := ∅; dirs := ∅; denied := {["/readonly/data/"]};
       clock := Scenario.seconds; ticks := 0 |} in
  DiskStorage.__init__ "chain.pkl" "/readonly/data/" w = (Raise OSError, w).
Proof.
  intros w.
  apply (init_directory_denied "chain.pkl" "/readonly/data/" w).
  - reflexivity.
  - vm_compute. set_solver.
Defined.

(** With an empty file name the store path is the directory. *)
Lemma init_store_not_a_file_witness :
  DiskStorage.__init__ EmptyString "/data/" Scenario.fresh_world =
  (Raise OSError, Scenario.fresh_world).
Proof.
  exact (init_store_not_a_file EmptyString "/data/" Scenario.fresh_world
           (or_introl eq_refl) eq_refl eq_refl).
Defined.

Section StoreAppend.
Context {RT : Runtime}.
Import DiskStorage.

Lemma exists_path_with_file (w : World) (p q : string) (b : list byte) :
  exists_path w p = true -> exists_path (with_file w q b) p = true.
Proof.
  unfold exists_path. cbn. intros H.
  apply orb_true_iff in H. apply orb_true_iff.
  destruct H as [H | H]; [left; exact H | right].
  apply bool_decide_eq_true in H. apply bool_decide_eq_true.
  rewrite dom_insert_L. set_solver.
Qed.

Lemma exists_path_ensure_dir (w : World) (p q : string) :
  exists_path w p = true -> exists_path (ensure_dir w q) p = true.
Proof.
  intros H. unfold ensure_dir. destruct (exists_path w q); [exact H |].
  unfold exists_path in *. cbn.
  apply orb_true_iff in H. apply orb_true_iff.
  destruct H as [H | H]; [left | right; exact H].
  apply bool_decide_eq_true in H. apply bool_decide_eq_true. set_solver.
Qed.

(** X8. Restart.  After an append, a storage constructed again on the
    same directory and file name comes back as the storage object that
    made the append, head included, provided the unpickler returns the
    head that was pickled. *)
Theorem restart_restores_head (st : State) (payload : LocalFileData)
    (chain_file_name : string) :
  let w := world st in
  let name := payload_name (self st) payload (clock w (ticks w)) in
  let link :=
    mkChainLink {| ChainFile.file := name;
                   ChainFile.timestamp := clock w (S (ticks w)) |}
                (head st) in
  chain_file (self st) = path (self st) +:+ chain_file_name ->
  exists_path w (path (self st)) = true ->
  dir_ready w (payload_prefix (self st) payload) ->
  name ∉ denied w ->
  chain_file (self st) ∉ denied w ->
  pickle_load (pickle_dump (Some link)) = Return (Some link) ->
  exists st',
    add_to_chain payload st = (Return name, st')
    /\ head st' = Some link
    /\ __init__ chain_file_name (path (self st)) (world st') =
         (Return (self st'), world st').
Proof.
  intros w name link Hstore Hpath Hdir Hname Hwrite Hround.
  eexists. split; [apply add_to_chain_ok; assumption |].
  fold w name link. split; [reflexivity |].
  set (w' := with_file _ _ _).
  assert (Hthere : exists_path w' (path (self st)) = true).
  { unfold w'. do 2 apply exists_path_with_file.
    unfold exists_path. cbn -[ensure_dir]. fold (exists_path
      (with_file (tick (ensure_dir w (payload_prefix (self st) payload)))
                 name (json_dump payload)) (path (self st))).
    apply exists_path_with_file.
    change (exists_path (ensure_dir w (payload_prefix (self st) payload))
              (path (self st)) = true).
    apply exists_path_ensure_dir, Hpath. }
  assert (Hfile : files w' !! (path (self st) +:+ chain_file_name) =
                  Some (pickle_dump (Some link))).
  { rewrite <- Hstore. unfold w'. cbn. apply lookup_insert_eq. }
  cbn [self world path].
  rewrite (init_loads chain_file_name (path (self st)) w'
             (pickle_dump (Some link)) (or_introl Hthere) Hfile).
  rewrite Hround, (ensure_dir_id _ _ Hthere), <- Hstore. reflexivity.
Qed.

(** X9. When the payload file cannot be written, [add_to_chain] raises
    the OSError before a link is made: the storage object, head
    included, and every file are as they were. *)
Theorem add_to_chain_payload_write_fails (st : State)
    (payload : LocalFileData) :
  let w := world st in
  let name := payload_name (self st) payload (clock w (ticks w)) in
  dir_ready w (payload_prefix (self st) payload) ->
  name ∈ denied w ->
  exists st',
    add_to_chain payload st = (Raise OSError, st')
    /\ self st' = self st
    /\ files (world st') = files w.
Proof.
  intros w name Hdir Hname.
  eexists. split; [| split].
  - unfold add_to_chain. unfold mbind at 1, io_bind at 1.
    unfold __save_file. io_step. unfold in_world, os.path_exists, os.now.
    io_step.
    change (match payload with
            | Production _ => path (self st) +:+ "production/"
            | Consumption _ => path (self st) +:+ "consumption/"
            end) with (payload_prefix (self st) payload).
    fold w.
    destruct (exists_path w (payload_prefix (self st) payload)) eqn:He;
      cbn [negb].
    + cbn. rewrite write_bytes_denied by exact Hname.
      instantiate (1 := {| world := tick (ensure_dir w
                             (payload_prefix (self st) payload));
                           self := self st |}).
      unfold ensure_dir. rewrite He. reflexivity.
    + destruct Hdir as [H | H]; [congruence |].
      rewrite makedirs_ok by exact H. cbn.
      rewrite write_bytes_denied by exact Hname.
      unfold ensure_dir. rewrite He. reflexivity.
  - reflexivity.
  - cbn. apply files_ensure_dir.
Qed.

(** X10. When the directory of the payload is missing and cannot be
    created, [add_to_chain] raises the OSError and changes nothing at
    all. *)
Theorem add_to_chain_directory_denied (st : State) (payload : LocalFileData) :
  let prefix := payload_prefix (self st) payload in
  exists_path (world st) prefix = false ->
  prefix ∈ denied (world st) ->
  add_to_chain payload st = (Raise OSError, st).
Proof.
  intros prefix Habsent Hdenied.
  unfold add_to_chain. unfold mbind at 1, io_bind at 1.
  unfold __save_file. io_step. unfold in_world, os.path_exists. io_step.
  change (match payload with
          | Production _ => path (self st) +:+ "production/"
          | Consumption _ => path (self st) +:+ "consumption/"
          end) with prefix.
  rewrite Habsent. cbn [negb]. unfold os.makedirs.
  rewrite bool_decide_eq_true_2 by exact Hdenied.
  destruct st; reflexivity.
Qed.

End StoreAppend.

Lemma restart_restores_head_witness :
  let st :=
    {| DiskStorage.world := Scenario.fresh_world;
       DiskStorage.self := Scenario.storage |} in
  exists st',
    DiskStorage.add_to_chain Scenario.meter_down st =
      (Return "/data/consumption/2018-03-09-14:05:00.json", st')
    /\ head st' =
         Some (mkChainLink
                 {| ChainFile.file :=
                      "/data/consumption/2018-03-09-14:05:00.json";
                    ChainFile.timestamp := Scenario.seconds 1 |}
                 None)
    /\ DiskStorage.__init__ "chain.pkl" "/data/" (DiskStorage.world st') =
         (Return (DiskStorage.self st'), DiskStorage.world st').
Proof.
  intros st.
  exact (restart_restores_head st Scenario.meter_down "chain.pkl"
           eq_refl eq_refl (or_intror (not_elem_of_empty _))
           (not_elem_of_empty _) (not_elem_of_empty _) eq_refl).
Defined.

Lemma add_to_chain_payload_write_fails_witness :
  let w :=
    {| files := ∅; dirs := {["/data/"]};
       denied := {["/data/consumption/2018-03-09-14:05:00.json"]};
       clock := Scenario.seconds; ticks := 0 |} in
  let st :=
    {| DiskStorage.world := w; DiskStorage.self := Scenario.storage |} in
  exists st',
    DiskStorage.add_to_chain Scenario.meter_down st = (Raise OSError, st')
    /\ DiskStorage.self st' = Scenario.storage
    /\ files (DiskStorage.world st') = ∅.
Proof.
  intros w st.
  refine (add_to_chain_payload_write_fails st Scenario.meter_down
            (or_intror _) _).
  - vm_compute. set_solver.
  - vm_compute. set_solver.
Defined.

Lemma add_to_chain_directory_denied_witness :
  let w :=
    {| files := ∅; dirs := {["/data/"]};
       denied := {["/data/consumption/"]};
       clock := Scenario.seconds; ticks := 0 |} in
  let st :=
    {| DiskStorage.world := w; DiskStorage.self := Scenario.storage |} in
  DiskStorage.add_to_chain Scenario.meter_down st = (Raise OSError, st).
Proof.
  intros w st.
  apply (add_to_chain_directory_denied st Scenario.meter_down).
  - reflexivity.
  - vm_compute. set_solver.
Defined.

Section StoreReads.
Context {RT : Runtime}.
Import DiskStorage.

(** X11. [get_last_hash] only reads: whatever it returns or raises, the
    storage object and the world are as before; and when the file of the
    head is missing it raises the OSError of [open]. *)
Theorem get_last_hash_reads_only (st : State) :
  (get_last_hash st).2 = st
  /\ forall link : ChainLink,
       head st = Some link ->
       files (world st) !! ChainFile.file (data link) = None ->
       get_last_hash st = (Raise OSError, st).
Proof.
  assert (Hmissing : forall link : ChainLink,
             head st = Some link ->
             files (world st) !! ChainFile.file (data link) = None ->
             get_last_hash st = (Raise OSError, st)).
  { intros link Hhead Hfile. unfold get_last_hash, chain. io_step.
    unfold head in Hhead. rewrite Hhead.
    unfold in_world, os.read_bytes. rewrite Hfile.
    destruct st; reflexivity. }
  split; [| exact Hmissing].
  destruct (head st) as [link |] eqn:Hhead.
  - destruct (files (world st) !! ChainFile.file (data link)) as [b |]
      eqn:Hfile.
    + rewrite (get_last_hash_head st link b Hhead Hfile). reflexivity.
    + rewrite (Hmissing link eq_refl Hfile). reflexivity.
  - rewrite (get_last_hash_empty st Hhead). reflexivity.
Qed.

(** X12. Right after an append, [get_last_hash] is the address of the
    payload that was appended: ["Qm"] and the base-58 SHA-1 of its JSON
    bytes. *)
Theorem hash_after_append (st : State) (payload : LocalFileData) :
  let w := world st in
  let name := payload_name (self st) payload (clock w (ticks w)) in
  dir_ready w (payload_prefix (self st) payload) ->
  name ∉ denied w ->
  chain_file (self st) ∉ denied w ->
  name <> chain_file (self st) ->
  exists st',
    add_to_chain payload st = (Return name, st')
    /\ get_last_hash st' =
         (Return ("Qm" +:+ b58encode (SHA1.hash (json_dump payload))), st').
Proof.
  intros w name Hdir Hname Hstore Hne.
  destruct (add_to_chain_appended st payload Hdir Hname Hstore)
    as (st' & link & Hrun & Happ & _).
  fold w name in Hrun, Happ.
  destruct Happ as (Hhead & Hfile & _ & _ & Hpayload & _).
  exists st'. split; [exact Hrun |].
  apply (get_last_hash_head st' link (json_dump payload) Hhead).
  rewrite Hfile. apply Hpayload, Hne.
Qed.

(** X13. Two appends whose clock readings give the same file name, as
    within one second for payloads of one kind, write one file: both
    links of the chain point at it and it holds the second payload, so
    the first payload is lost and the address of the head is that of the
    second. *)
Theorem same_name_appends_overwrite (st : State) (p1 p2 : LocalFileData) :
  let w := world st in
  let name := payload_name (self st) p1 (clock w (ticks w)) in
  payload_name (self st) p2 (clock w (S (S (ticks w)))) = name ->
  dir_ready w (payload_prefix (self st) p1) ->
  dir_ready w (payload_prefix (self st) p2) ->
  name ∉ denied w ->
  chain_file (self st) ∉ denied w ->
  name <> chain_file (self st) ->
  exists st1 st2,
    add_to_chain p1 st = (Return name, st1)
    /\ add_to_chain p2 st1 = (Return name, st2)
    /\ chain_files (head st2) = name :: name :: chain_files (head st)
    /\ files (world st2) !! name = Some (json_dump p2)
    /\ get_last_hash st2 =
         (Return ("Qm" +:+ b58encode (SHA1.hash (json_dump p2))), st2).
Proof.
  intros w name Hsame Hdir1 Hdir2 Hname Hstore Hne.
  destruct (add_to_chain_appended st p1 Hdir1 Hname Hstore)
    as (st1 & link1 & Hrun1 & Happ1 & Hden & Hclock & Hticks & Hready).
  fold w name in Hrun1, Happ1.
  destruct Happ1 as (Hhead1 & Hfile1 & Hlast1 & _ & _ & Hcf & Hpath).
  assert (Hprefix : payload_prefix (self st1) p2 =
                    payload_prefix (self st) p2)
    by (unfold payload_prefix; rewrite Hpath; reflexivity).
  assert (Hname2 : payload_name (self st1) p2
                     (clock (world st1) (ticks (world st1))) = name)
    by (unfold payload_name; rewrite Hprefix, Hclock, Hticks;
        exact Hsame).
  destruct (add_to_chain_appended st1 p2)
    as (st2 & link2 & Hrun2 & Happ2 & _).
  - rewrite Hprefix. apply Hready, Hdir2.
  - rewrite Hname2, Hden. exact Hname.
  - rewrite Hcf, Hden. exact Hstore.
  - rewrite Hname2 in Hrun2, Happ2.
    destruct Happ2 as (Hhead2 & Hfile2 & Hlast2 & _ & Hpayload & _).
    rewrite Hcf in Hpayload. specialize (Hpayload Hne).
    exists st1, st2. split; [exact Hrun1 |]. split; [exact Hrun2 |].
    split; [| split].
    + rewrite Hhead2. destruct link2 as [d2 prev2]. cbn in *.
      subst prev2. rewrite Hhead1. destruct link1 as [d1 prev1]. cbn in *.
      subst prev1. rewrite Hfile1, Hfile2. reflexivity.
    + exact Hpayload.
    + apply (get_last_hash_head st2 link2 (json_dump p2) Hhead2).
      rewrite Hfile2. exact Hpayload.
Qed.

End StoreReads.

Lemma get_last_hash_reads_only_witness :
  let st :=
    {| DiskStorage.world := Scenario.fresh_world;
       DiskStorage.self :=
         {| DiskStorage.chain_file := "/data/chain.pkl";
            DiskStorage.path := "/data/";
            DiskStorage.__memory := Some Scenario.abc_link |} |} in
  DiskStorage.get_last_hash st = (Raise OSError, st).
Proof.
  intros st.
  exact (proj2 (get_last_hash_reads_only st) Scenario.abc_link
           eq_refl eq_refl).
Defined.

Lemma hash_after_append_witness :
  let st :=
    {| DiskStorage.world := Scenario.fresh_world;
       DiskStorage.self := Scenario.storage |} in
  exists st',
    DiskStorage.add_to_chain Scenario.meter_down st =
      (Return "/data/consumption/2018-03-09-14:05:00.json", st')
    /\ DiskStorage.get_last_hash st' =
         (Return
            ("Qm" +:+ b58encode (SHA1.hash (json_dump Scenario.meter_down))),
          st').
Proof.
  intros st.
  refine (hash_after_append st Scenario.meter_down
            (or_intror (not_elem_of_empty _)) (not_elem_of_empty _)
            (not_elem_of_empty _) _).
  vm_compute. discriminate.
Defined.

(** Two consumption payloads within the second 14:05:00. *)
Lemma same_name_appends_overwrite_witness :
  let w :=
    {| files := ∅; dirs := {["/data/"]}; denied := ∅;
       clock := fun _ => Scenario.seconds 0; ticks := 0 |} in
  let st :=
    {| DiskStorage.world := w; DiskStorage.self := Scenario.storage |} in
  let p2 :=
    Consumption
      {| ConsumptionFileData.raw_energy := None;
         ConsumptionFileData.consumed :=
           Some {| ConsumedChainData.energy := PyInt 0;
                   ConsumedChainData.previous_hash := "QmFirst";
                   ConsumedChainData.is_meter_down := true |} |} in
  let name := "/data/consumption/2018-03-09-14:05:00.json" in
  exists st1 st2,
    DiskStorage.add_to_chain Scenario.meter_down st = (Return name, st1)
    /\ DiskStorage.add_to_chain p2 st1 = (Return name, st2)
    /\ chain_files (head st2) = [name; name]
    /\ files (DiskStorage.world st2) !! name = Some (json_dump p2)
    /\ DiskStorage.get_last_hash st2 =
         (Return ("Qm" +:+ b58encode (SHA1.hash (json_dump p2))), st2).
Proof.
  intros w st p2 name.
  refine (same_name_appends_overwrite st Scenario.meter_down p2
            eq_refl (or_intror (not_elem_of_empty _))
            (or_intror (not_elem_of_empty _)) (not_elem_of_empty _)
            (not_elem_of_empty _) _).
  vm_compute. discriminate.
Defined.

Section StoreInvariant.
Context {RT : Runtime}.
Import DiskStorage.

(** X14. The files of the chain stay in place.  When every file the
    chain refers to is there, an append puts the new file in front of
    the files of the chain, which are otherwise unchanged, and every
    file of the longer chain is there; and on such a chain with a head,
    [get_last_hash] returns an address. *)
Theorem append_keeps_chain_files (st : State) (payload : LocalFileData) :
  let w := world st in
  let name := payload_name (self st) payload (clock w (ticks w)) in
  chain_files_present st ->
  dir_ready w (payload_prefix (self st) payload) ->
  name ∉ denied w ->
  chain_file (self st) ∉ denied w ->
  exists st' b,
    add_to_chain payload st = (Return name, st')
    /\ chain_files (head st') = name :: chain_files (head st)
    /\ chain_files_present st'
    /\ files (world st') !! name = Some b
    /\ get_last_hash st' = (Return ("Qm" +:+ b58encode (SHA1.hash b)), st').
Proof.
  intros w name Hpresent Hdir Hname Hstore.
  pose proof (add_to_chain_ok st payload Hdir Hname Hstore) as Hrun.
  cbn zeta in Hrun. fold w name in Hrun.
  set (link := mkChainLink _ (head st)) in Hrun.
  set (st' := {| world := _; self := _ |}) in Hrun.
  assert (Hfiles : forall f, is_Some (files w !! f) ->
                     is_Some (files (world st') !! f)).
  { intros f Hf. unfold st'. cbn. rewrite files_ensure_dir. fold w.
    rewrite !lookup_insert. repeat case_decide; eauto. }
  assert (Hnew : is_Some (files (world st') !! name)).
  { unfold st'. cbn. rewrite !lookup_insert. repeat case_decide; eauto.
    congruence. }
  destruct Hnew as [b Hb].
  assert (Hchain : chain_files (head st') = name :: chain_files (head st)).
  { unfold st', head. cbn. unfold head. destruct (__memory (self st));
      reflexivity. }
  exists st', b. split; [exact Hrun |]. split; [exact Hchain |].
  split; [| split; [exact Hb |]].
  - unfold chain_files_present. rewrite Hchain. constructor; [eauto |].
    eapply Forall_impl; [exact Hpresent |]. exact Hfiles.
  - apply (get_last_hash_head st' link b); [reflexivity | exact Hb].
Qed.

(** X15. An append writes two paths and no other: every file but the
    payload file and the store file keeps its bytes, no file goes away,
    and the paths that cannot be written stay the same. *)
Theorem add_to_chain_writes_two_paths (st : State)
    (payload : LocalFileData) :
  let w := world st in
  let name := payload_name (self st) payload (clock w (ticks w)) in
  dir_ready w (payload_prefix (self st) payload) ->
  name ∉ denied w ->
  chain_file (self st) ∉ denied w ->
  exists st',
    add_to_chain payload st = (Return name, st')
    /\ (forall q, q <> name -> q <> chain_file (self st) ->
          files (world st') !! q = files w !! q)
    /\ dom (files (world st')) =
         {[name; chain_file (self st)]} ∪ dom (files w)
    /\ denied (world st') = denied w.
Proof.
  intros w name Hdir Hname Hstore.
  eexists. split; [apply add_to_chain_ok; assumption |].
  fold w name. cbn. rewrite files_ensure_dir, denied_ensure_dir. fold w.
  split; [| split].
  - intros q Hq1 Hq2. rewrite !lookup_insert_ne by congruence. reflexivity.
  - rewrite !dom_insert_L. apply set_eq. intros x.
    rewrite !elem_of_union, !elem_of_singleton. tauto.
  - reflexivity.
Qed.

(** X16. [chain = None] on a store file that cannot be written raises
    the OSError, and the head in memory is already empty: the chain is
    gone from the object while the store file still holds it. *)
Theorem chain_setter_none_failed_write (st : State) :
  chain_file (self st) ∈ denied (world st) ->
  exists st',
    chain_setter None st = (Raise OSError, st')
    /\ head st' = None
    /\ world st' = world st
    /\ store_file st' = store_file st.
Proof.
  intros Hstore. eexists. split; [| split; [| split]].
  - unfold chain_setter, __chain_append, set_memory.
    unfold mbind at 1, io_bind at 1, modify.
    rewrite save_memory_denied by exact Hstore. reflexivity.
  - reflexivity.
  - reflexivity.
  - reflexivity.
Qed.

End StoreInvariant.


Lemma append_keeps_chain_files_witness :
  exists st' b,
    DiskStorage.add_to_chain Scenario.produced_17 Scenario.abc_state =
      (Return "/data/production/2018-03-09-14:05:00.json", st')
    /\ chain_files (head st') =
         ["/data/production/2018-03-09-14:05:00.json";
          "/data/production/2018-03-09-14:04:58.json"]
    /\ chain_files_present st'
    /\ files (DiskStorage.world st')
         !! "/data/production/2018-03-09-14:05:00.json" = Some b
    /\ DiskStorage.get_last_hash st' =
         (Return ("Qm" +:+ b58encode (SHA1.hash b)), st').
Proof.
  refine (append_keeps_chain_files Scenario.abc_state Scenario.produced_17
            _ (or_intror (not_elem_of_empty _)) (not_elem_of_empty _)
            (not_elem_of_empty _)).
  unfold chain_files_present. repeat constructor. eexists. reflexivity.
Defined.

Lemma add_to_chain_writes_two_paths_witness :
  exists st',
    DiskStorage.add_to_chain Scenario.produced_17 Scenario.abc_state =
      (Return "/data/production/2018-03-09-14:05:00.json", st')
    /\ (forall q,
          q <> "/data/production/2018-03-09-14:05:00.json" ->
          q <> "/data/chain.pkl" ->
          files (DiskStorage.world st') !! q =
          files Scenario.abc_world !! q)
    /\ dom (files (DiskStorage.world st')) =
         {["/data/production/2018-03-09-14:05:00.json"; "/data/chain.pkl"]}
           ∪ dom (files Scenario.abc_world)
    /\ denied (DiskStorage.world st') = ∅.
Proof.
  exact (add_to_chain_writes_two_paths Scenario.abc_state
           Scenario.produced_17 (or_intror (not_elem_of_empty _))
           (not_elem_of_empty _) (not_elem_of_empty _)).
Defined.

(** A chain of one link, a store file that is read-only. *)
Lemma chain_setter_none_failed_write_witness :
  let st :=
    {| DiskStorage.world := Scenario.readonly_store_world;
       DiskStorage.self :=
         {| DiskStorage.chain_file := "/data/chain.pkl";
            DiskStorage.path := "/data/";
            DiskStorage.__memory := Some Scenario.abc_link |} |} in
  head st = Some Scenario.abc_link
  /\ exists st',
       DiskStorage.chain_setter None st = (Raise OSError, st')
       /\ head st' = None
       /\ DiskStorage.world st' = Scenario.readonly_store_world
       /\ store_file st' = store_file st.
Proof.
  intros st. split; [reflexivity |].
  apply (chain_setter_none_failed_write st).
  vm_compute. set_solver.
Defined.
